(** * Lab Solution Calculator (app.py): shallow embedding and properties

    The calculator is a Streamlit script: a sidebar of global settings, a
    mode selector and one branch of closed-form arithmetic per mode, behind
    a login and a subscription lookup.  Each branch is embedded here as a
    function of the values its widgets return.

    Numbers.  The script computes on Python [float]s.  The branches are
    embedded on exact rationals [Q], the arithmetic in which the formulas
    of solution chemistry are stated: every formula keeps the shape and the
    order of operations it has in the script, and equalities between
    computed numbers are stated with [==] on [Q].  Module [B64] embeds a
    few branches a second time on binary64 itself, to see what the script
    computes at given inputs where rounding matters.  The values inf and
    nan, overflow and underflow are left out of both.

    Failure.  Two kinds of failure are kept apart, as in the script:
    - a Python exception ([ZeroDivisionError] from [/], an error thrown by
      the backend client) is the [Raise] outcome of the [py] monad;
    - a branch that calls [st.error] instead of computing is the [Error]
      constructor of [shown]. *)

From stdpp Require Import gmap strings.
From Stdlib Require Import QArith Qround Qpower Qabs Lqa Lia ZArith List SpecFloat Ascii.
Import ListNotations.

Open Scope Q_scope.

(** ** Python outcomes *)

Inductive exn : Type :=
  | ZeroDivisionError
  | Exception (msg : string).

Inductive py (A : Type) : Type :=
  | Return (a : A)
  | Raise (e : exn).
Arguments Return {A} a.
Arguments Raise {A} e.

#[global] Instance py_ret : MRet py := fun A a => Return a.
#[global] Instance py_bind : MBind py := fun A B f m =>
  match m with
  | Return a => f a
  | Raise e => Raise e
  end.

(** What a mode branch puts on the page: either an [st.error] message and
    no result, or the computed result. *)
Inductive shown (A : Type) : Type :=
  | Error (msg : string)
  | Result (a : A).
Arguments Error {A} msg.
Arguments Result {A} a.

(** ** Arithmetic and comparisons on floats *)

(** [x / y] with a divisor that is a variable: Python raises on zero. *)
Definition truediv (x y : Q) : py Q :=
  if Qeq_bool y 0 then Raise ZeroDivisionError else Return (x / y).

Definition float_lt (x y : Q) : bool := negb (Qle_bool y x).
Definition float_gt (x y : Q) : bool := negb (Qle_bool x y).
Definition float_le (x y : Q) : bool := Qle_bool x y.

(** [round(x, ndigits)]: to the nearest multiple of [10^-ndigits], ties to
    the even one. *)
Definition round_half_even (s : Q) : Z :=
  let f := Qfloor s in
  match Qcompare (s - inject_Z f) (1 # 2) with
  | Lt => f
  | Gt => (f + 1)%Z
  | Eq => if Z.even f then f else (f + 1)%Z
  end.

Definition round (x : Q) (ndigits : nat) : Q :=
  let p := inject_Z (10 ^ Z.of_nat ndigits) in
  inject_Z (round_half_even (x * p)) / p.

(** ** Widgets

    [st.number_input(..., min_value=m)] only ever returns a value [v] with
    [m <= v] (and [v <= M] when [max_value=M] is given). *)
Definition number_input (min_value : Q) (max_value : option Q) (v : Q) : bool :=
  float_le min_value v
  && match max_value with Some M => float_le v M | None => true end.

(** ** Sidebar: global settings (lines 235-262) *)

Inductive vehicle : Type := Aqueous_none | DMSO | EtOH.

Definition vehicle_eqb (a b : vehicle) : bool :=
  match a, b with
  | Aqueous_none, Aqueous_none | DMSO, DMSO | EtOH, EtOH => true
  | _, _ => false
  end.

Record settings : Type := {
  well_volume : Q;
  max_vehicle : Q;
  vehicle_type : vehicle;
  stock_vehicle_percent : Q
}.

Definition vehicle_frac (g : settings) : Q :=
  if negb (vehicle_eqb (vehicle_type g) Aqueous_none)
     && float_gt (stock_vehicle_percent g) 0
  then stock_vehicle_percent g / 100
  else 0.

(** ** Mode 1: single dilution (lines 318-357) *)

Inductive conc_unit : Type := mM | uM.

Definition conc_unit_eqb (a b : conc_unit) : bool :=
  match a, b with
  | mM, mM | uM, uM => true
  | _, _ => false
  end.

Definition min_pip : Q := 1.

Record single_result : Type := {
  sd_v1_ul : Q;
  sd_solvent_ul : Q;
  sd_vehicle_percent : Q;
  (** the "Vehicle ... > allowed ..." warning was issued *)
  sd_vehicle_warning : bool;
  (** the "Volume from stock is very small" warning, with the suggested
      intermediate stock concentration *)
  sd_c_intermediate : option Q
}.

Definition single_dilution (g : settings)
    (stock_conc : Q) (stock_unit : conc_unit)
    (target_conc : Q) (target_unit : conc_unit) : py (shown single_result) :=
  if negb (conc_unit_eqb stock_unit target_unit) then
    mret (Error "For now, keep units the same (mM→mM or µM→µM).")
  else
    v1_ul ← truediv (target_conc * well_volume g) stock_conc;
    let solvent_ul := well_volume g - v1_ul in
    let solvent_ul := if float_lt solvent_ul 0 then 0 else solvent_ul in
    q ← truediv (v1_ul * vehicle_frac g) (well_volume g);
    let vehicle_percent := q * 100 in
    mret (Result {|
      sd_v1_ul := v1_ul;
      sd_solvent_ul := solvent_ul;
      sd_vehicle_percent := vehicle_percent;
      sd_vehicle_warning := float_gt vehicle_percent (max_vehicle g);
      sd_c_intermediate :=
        if float_lt v1_ul min_pip
        then Some ((target_conc * well_volume g) / min_pip)
        else None
    |}).

(** ** Loops *)

(** [for x in xs: body], threading the variables the body assigns. *)
Fixpoint for_in {A S : Type} (xs : list A) (body : A -> S -> py S) (s : S) : py S :=
  match xs with
  | [] => mret s
  | x :: xs' => s' ← body x s; for_in xs' body s'
  end.

(** [range(n)] *)
Definition range (n : Z) : list Z := map Z.of_nat (seq 0 (Z.to_nat n)).

(** ** Mode 2: serial dilutions (lines 387-418) *)

Record serial_row : Type := {
  sr_step : Z;
  sr_from_mM : Q;
  sr_to_mM : Q;
  sr_take_from_prev_ul : Q;
  sr_add_solvent_ul : Q;
  sr_vehicle_percent : Q;
  sr_note : string
}.

(** One pass of the loop body; the loop variables are [rows] and
    [current_conc]. *)
Definition serial_body (g : settings) (dil_factor final_vol_each : Q)
    (i : Z) (s : list serial_row * Q) : py (list serial_row * Q) :=
  let '(rows, current_conc) := s in
  next_conc ← truediv current_conc dil_factor;
  v1_ul ← truediv (next_conc * final_vol_each) current_conc;
  let solvent_ul := final_vol_each - v1_ul in
  q ← truediv (v1_ul * vehicle_frac g) final_vol_each;
  let vehicle_percent := q * 100 in
  let warning_flag :=
    if float_lt v1_ul min_pip
    then "<1 µl → make intermediate"%string else EmptyString in
  mret (rows ++ [ {|
          sr_step := (i + 1)%Z;
          sr_from_mM := round current_conc 6;
          sr_to_mM := round next_conc 6;
          sr_take_from_prev_ul := round v1_ul 3;
          sr_add_solvent_ul := round solvent_ul 3;
          sr_vehicle_percent := round vehicle_percent 5;
          sr_note := warning_flag
        |} ],
        next_conc).

(** The branch: the table [rows] and the value [current_conc] is left
    with when the loop ends. *)
Definition serial_dilutions (g : settings)
    (start_conc : Q) (n_steps : Z) (dil_factor final_vol_each : Q)
    : py (list serial_row * Q) :=
  for_in (range n_steps) (serial_body g dil_factor final_vol_each) ([], start_conc).

(** ** Mode 3: experiment series (lines 438-463)

    [concs] is the list of numbers parsed from the text field. *)

Record series_row : Type := {
  es_final_conc_uM : Q;
  es_add_stock_ul : Q;
  es_add_medium_ul : Q;
  es_vehicle_percent : Q;
  es_ok : string;
  es_total_vol_ul : Q
}.

(** The dictionary the loop body builds for the concentration [c]. *)
Definition series_row_of (g : settings) (stock_conc_uM : Q) (reps : Z) (overfill : Q)
    (c : Q) : py series_row :=
  v1_ul ← truediv (c * well_volume g) stock_conc_uM;
  let solvent_ul := well_volume g - v1_ul in
  q ← truediv (v1_ul * vehicle_frac g) (well_volume g);
  let vehicle_percent := q * 100 in
  let total_vol_ul := (v1_ul + solvent_ul) * inject_Z reps * overfill in
  mret {|
    es_final_conc_uM := c;
    es_add_stock_ul := round v1_ul 3;
    es_add_medium_ul := round solvent_ul 3;
    es_vehicle_percent := round vehicle_percent 5;
    es_ok := if float_gt vehicle_percent (max_vehicle g)
             then "⚠ > limit"%string else "✅"%string;
    es_total_vol_ul := round total_vol_ul 1
  |}.

(** [table.append(row)] *)
Definition append_row {R : Type} (row_of : Q -> py R) (c : Q) (table : list R)
    : py (list R) :=
  row ← row_of c; mret (table ++ [row]).

Definition experiment_series (g : settings) (concs : list Q)
    (stock_conc_uM : Q) (reps : Z) (overfill : Q) : py (list series_row) :=
  for_in concs (append_row (series_row_of g stock_conc_uM reps overfill)) [].

(** ** Mode 4: from solid, mg to solution (lines 517-538)

    The mass to weigh is written to the page (line 532) before the
    "dissolve all your powder" figures are computed, so the branch yields
    the first whatever becomes of the second. *)

Record solid_result : Type := {
  fs_m_needed_mg : Q;
  (** [stock_if_1ml_mM], [stock_if_2ml_mM] *)
  fs_stock_if_dissolved : py (Q * Q)
}.

Definition from_solid (mass_mg mw : Q) (target_unit : conc_unit)
    (target_conc final_vol_ml : Q) : shown solid_result :=
  let C := match target_unit with
           | uM => target_conc * 0.000001
           | mM => target_conc * 0.001
           end in
  let V_L := final_vol_ml / 1000 in
  let m_needed_g := C * V_L * mw in
  let m_needed_mg := m_needed_g * 1000 in
  Result {|
    fs_m_needed_mg := m_needed_mg;
    fs_stock_if_dissolved :=
      let mass_g := mass_mg / 1000 in
      n_mol ← truediv mass_g mw;
      mret ((n_mol / 0.001) * 1000, (n_mol / 0.002) * 1000)
  |}.

(** The bounds of the branch's number fields. *)
Definition from_solid_inputs_ok (mass_mg mw target_conc final_vol_ml : Q) : bool :=
  number_input 0.0001 None mass_mg
  && number_input 1 None mw
  && number_input 0.0001 None target_conc
  && number_input 0.1 None final_vol_ml.

(** ** Mode 5: unit converter (lines 586-599) *)

Inductive direction : Type := mgml_to_mM | mM_to_mgml.

Definition unit_converter (mw : Q) (d : direction) (x : Q) : py Q :=
  match d with
  | mgml_to_mM => truediv (x * 1000) mw
  | mM_to_mgml => mret ((x * mw) / 1000)
  end.

(** ** Mode 13: Beer-Lambert (lines 776-787) *)

Definition beer_lambert (absorbance epsilon pathlength : Q) : py (shown Q) :=
  if float_gt epsilon 0 && float_gt pathlength 0 then
    conc_M ← truediv absorbance (epsilon * pathlength);
    mret (Result conc_M)
  else
    mret (Error "Epsilon and pathlength must be > 0").

(** ** Mode 15: plate DMSO cap checker (lines 808-826) *)

Record plate_row : Type := {
  pl_final_conc_uM : Q;
  pl_stock_vol_ul : Q;
  pl_dmso_percent : Q;
  pl_ok : string
}.

Definition plate_row_of (g : settings) (stock_conc_uM dmso_cap : Q)
    (c : Q) : py plate_row :=
  v1_ul ← truediv (c * well_volume g) stock_conc_uM;
  q ← truediv (v1_ul * vehicle_frac g) (well_volume g);
  let dmso_percent := q * 100 in
  mret {|
    pl_final_conc_uM := c;
    pl_stock_vol_ul := round v1_ul 3;
    pl_dmso_percent := round dmso_percent 5;
    pl_ok := if float_le dmso_percent dmso_cap
             then "✅"%string else "⚠ EXCEEDS"%string
  |}.

Definition plate_dmso_checker (g : settings) (concs : list Q)
    (stock_conc_uM dmso_cap : Q) : py (list plate_row) :=
  for_in concs (append_row (plate_row_of g stock_conc_uM dmso_cap)) [].

(** ** Mode 16: aliquot splitter (lines 834-850) *)

Record aliquot_result : Type := {
  n_aliquots : Z;
  leftover : Q;
  (** the "reserved as dead volume" note was shown *)
  al_dead_note : bool
}.

Definition aliquot_splitter (total_vol_ml aliquot_vol_ml dead_vol_ml : Q)
    : py (shown aliquot_result) :=
  let usable_vol_ml := total_vol_ml - dead_vol_ml in
  if float_le usable_vol_ml 0 then
    mret (Error "Dead volume is ≥ total volume.")
  else
    q ← truediv usable_vol_ml aliquot_vol_ml;
    let n_aliquots := Qfloor q in
    let leftover := usable_vol_ml - inject_Z n_aliquots * aliquot_vol_ml in
    mret (Result {|
      n_aliquots := n_aliquots;
      leftover := leftover;
      al_dead_note := float_gt dead_vol_ml 0
    |}).

(** ** Subscription lookup (lines 72-94)

    The backend client is outside the script.  A query either raises or
    answers with a response whose [data] is [None] or a list of rows, each
    row a dictionary from column names to JSON values. *)

Inductive json : Type :=
  | JNull
  | JBool (b : bool)
  | JNum (q : Q)
  | JStr (s : string).

Record response : Type := {
  data : option (list (gmap string json))
}.

(** [try: body except Exception: handler] *)
Definition try_except {A : Type} (body : py A) (handler : exn -> py A) : py A :=
  match body with
  | Return a => Return a
  | Raise e => handler e
  end.

Section Subscription.

(** [supabase.table("subscriptions").select("plan").eq("user_id", user_id)
    .limit(1).execute()] *)
Variable execute : string -> py response.

Definition get_subscription_plan (user_id : string) : py json :=
  try_except
    (resp ← execute user_id;
     (* resp.data or [] *)
     let data := match data resp with
                 | Some (r :: rs) => r :: rs
                 | Some [] | None => []
                 end in
     (* len(data) > 0 and "plan" in data[0] *)
     match data with
     | r :: _ =>
         match r !! "plan"%string with
         | Some plan => mret plan
         | None => mret (JStr "free")
         end
     | [] => mret (JStr "free")
     end)
    (fun e => mret (JStr "free")).

End Subscription.

(** ** The same arithmetic in binary64

    Python's [float] bit for bit: IEEE 754 binary64, every operation
    rounded to nearest, ties to even.  The branches whose properties are
    exact equalities or tight bounds between computed values are embedded a
    second time on this type, to evaluate the script at given inputs. *)

Module B64.

Definition prec : Z := 53.
Definition emax : Z := 1024.

Definition float : Type := spec_float.

(** An [int] operand of float arithmetic. *)
Definition of_int (n : Z) : float := binary_normalize prec emax n 0 false.

(** The float a decimal numeral [m * 10^-k] denotes, typed in a field or
    written in the script (for an [m] below 2^53 and [k <= 22], where [m]
    and [10^k] are floats and the quotient is rounded once). *)
Definition decimal (m : Z) (k : nat) : float :=
  SFdiv prec emax (of_int m) (of_int (10 ^ Z.of_nat k)).

Definition add (x y : float) : float := SFadd prec emax x y.
Definition sub (x y : float) : float := SFsub prec emax x y.
Definition mul (x y : float) : float := SFmul prec emax x y.

Definition is_zero (x : float) : bool :=
  match x with
  | S754_zero _ => true
  | _ => false
  end.

(** [x / y] with a divisor that is a non-zero literal. *)
Definition div (x y : float) : float := SFdiv prec emax x y.

Definition truediv (x y : float) : py float :=
  if is_zero y then Raise ZeroDivisionError
  else Return (SFdiv prec emax x y).

Definition ltb (x y : float) : bool := SFltb x y.
Definition leb (x y : float) : bool := SFleb x y.
Definition eqb (x y : float) : bool := SFeqb x y.

(** [math.floor] *)
Definition floor (x : float) : py Z :=
  match x with
  | S754_zero _ => Return 0%Z
  | S754_finite s m e => Return (Z.shiftl (cond_Zopp s (Zpos m)) e)
  | S754_infinity _ => Raise (Exception "cannot convert float infinity to integer")
  | S754_nan => Raise (Exception "cannot convert float NaN to integer")
  end.

(** Single dilution, lines 334-337: [v1_ul] and [solvent_ul]. *)
Definition single_dilution_volumes (well_volume stock_conc target_conc : float)
    : py (float * float) :=
  v1_ul ← truediv (mul target_conc well_volume) stock_conc;
  let solvent_ul := sub well_volume v1_ul in
  let solvent_ul := if ltb solvent_ul (of_int 0) then decimal 0 1 else solvent_ul in
  mret (v1_ul, solvent_ul).

(** Aliquot splitter, lines 841-846: [n_aliquots] and [leftover]. *)
Definition aliquot_splitter (total_vol_ml aliquot_vol_ml dead_vol_ml : float)
    : py (shown (Z * float)) :=
  let usable_vol_ml := sub total_vol_ml dead_vol_ml in
  if leb usable_vol_ml (of_int 0) then
    mret (Error "Dead volume is ≥ total volume.")
  else
    q ← truediv usable_vol_ml aliquot_vol_ml;
    n_aliquots ← floor q;
    let leftover := sub usable_vol_ml (mul (of_int n_aliquots) aliquot_vol_ml) in
    mret (Result (n_aliquots, leftover)).

(** Beer-Lambert, lines 783-784. *)
Definition beer_lambert (absorbance epsilon pathlength : float) : py (shown float) :=
  if ltb (of_int 0) epsilon && ltb (of_int 0) pathlength then
    conc_M ← truediv absorbance (mul epsilon pathlength);
    mret (Result conc_M)
  else
    mret (Error "Epsilon and pathlength must be > 0").

(** Unit converter, lines 592-599. *)
Definition unit_converter (mw : float) (d : direction) (x : float) : py float :=
  match d with
  | mgml_to_mM => truediv (mul x (decimal 1000 0)) mw
  | mM_to_mgml => mret (div (mul x mw) (decimal 1000 0))
  end.

End B64.

(** ** Settings used in the worked examples *)

(** The "Cell culture (0.1% DMSO, 300 µl)" preset with a pure DMSO stock. *)
Definition cell_culture_300 : settings :=
  {| well_volume := 300; max_vehicle := 0.1;
     vehicle_type := DMSO; stock_vehicle_percent := 100 |}.

(** ** Serial dilutions: the loop unrolled *)

(** The value of [current_conc] after [k] passes of the loop. *)
Fixpoint conc_after (current_conc dil_factor : Q) (k : nat) : Q :=
  match k with
  | O => current_conc
  | S k' => conc_after (current_conc / dil_factor) dil_factor k'
  end.

(** The row pass [i] appends when it starts from [current_conc] and its
    three divisions go through. *)
Definition serial_row_at (g : settings) (dil_factor final_vol_each : Q)
    (i : Z) (current_conc : Q) : serial_row :=
  let next_conc := current_conc / dil_factor in
  let v1_ul := (next_conc * final_vol_each) / current_conc in
  let solvent_ul := final_vol_each - v1_ul in
  let vehicle_percent := (v1_ul * vehicle_frac g / final_vol_each) * 100 in
  {| sr_step := (i + 1)%Z;
     sr_from_mM := round current_conc 6;
     sr_to_mM := round next_conc 6;
     sr_take_from_prev_ul := round v1_ul 3;
     sr_add_solvent_ul := round solvent_ul 3;
     sr_vehicle_percent := round vehicle_percent 5;
     sr_note := if float_lt v1_ul min_pip
                then "<1 µl → make intermediate"%string else EmptyString |}.

(** The reading of "row N reports start / F^N" that takes the row's
    "to (mM)" entry as it stands in the table. *)
Definition row_reports_quotient (g : settings)
    (start_conc : Q) (n_steps : Z) (dil_factor final_vol_each : Q) : Prop :=
  exists rows current_conc r,
    serial_dilutions g start_conc n_steps dil_factor final_vol_each
      = Return (rows, current_conc)
    /\ rows !! (Z.to_nat n_steps - 1)%nat = Some r
    /\ sr_to_mM r == start_conc / dil_factor ^ n_steps.

(** ** Experiment series and plate checker: the rows *)

(** The same settings with another vehicle cap. *)
Definition with_max_vehicle (g : settings) (cap : Q) : settings :=
  {| well_volume := well_volume g;
     max_vehicle := cap;
     vehicle_type := vehicle_type g;
     stock_vehicle_percent := stock_vehicle_percent g |}.

(** The row [series_row_of] builds when its two divisions go through. *)
Definition series_row_at (g : settings) (stock_conc_uM : Q) (reps : Z) (overfill : Q)
    (c : Q) : series_row :=
  let v1_ul := (c * well_volume g) / stock_conc_uM in
  let solvent_ul := well_volume g - v1_ul in
  let vehicle_percent := (v1_ul * vehicle_frac g / well_volume g) * 100 in
  {| es_final_conc_uM := c;
     es_add_stock_ul := round v1_ul 3;
     es_add_medium_ul := round solvent_ul 3;
     es_vehicle_percent := round vehicle_percent 5;
     es_ok := if float_gt vehicle_percent (max_vehicle g)
              then "⚠ > limit"%string else "✅"%string;
     es_total_vol_ul := round ((v1_ul + solvent_ul) * inject_Z reps * overfill) 1 |}.

(** The row [plate_row_of] builds when its two divisions go through. *)
Definition plate_row_at (g : settings) (stock_conc_uM dmso_cap : Q) (c : Q) : plate_row :=
  let v1_ul := (c * well_volume g) / stock_conc_uM in
  let dmso_percent := (v1_ul * vehicle_frac g / well_volume g) * 100 in
  {| pl_final_conc_uM := c;
     pl_stock_vol_ul := round v1_ul 3;
     pl_dmso_percent := round dmso_percent 5;
     pl_ok := if float_le dmso_percent dmso_cap
              then "✅"%string else "⚠ EXCEEDS"%string |}.

(** Two rows of the series table that agree on every column but "OK?". *)
Definition same_volumes (r r' : series_row) : Prop :=
  es_final_conc_uM r = es_final_conc_uM r'
  /\ es_add_stock_ul r = es_add_stock_ul r'
  /\ es_add_medium_ul r = es_add_medium_ul r'
  /\ es_vehicle_percent r = es_vehicle_percent r'
  /\ es_total_vol_ul r = es_total_vol_ul r'.

(** The "Chemistry (no vehicle, 1000 µl)" preset. *)
Definition chemistry_1000 : settings :=
  {| well_volume := 1000; max_vehicle := 0;
     vehicle_type := Aqueous_none; stock_vehicle_percent := 100 |}.

(** ** From solid: the reading under which bad inputs are turned away *)

(** The branch showed an error message instead of a result. *)
Definition rejected {A : Type} (s : shown A) : Prop :=
  exists msg, s = Error msg.

Definition rejects_non_positive (mass_mg mw : Q) (target_unit : conc_unit)
    (target_conc final_vol_ml : Q) : Prop :=
  mw <= 0 \/ final_vol_ml <= 0 ->
  rejected (from_solid mass_mg mw target_unit target_conc final_vol_ml).

(** mol/L per unit of the target concentration field. *)
Definition mol_per_L (u : conc_unit) : Q :=
  match u with
  | uM => 0.000001
  | mM => 0.001
  end.

(** ** Backends used in the worked examples *)

Definition pro_backend (user_id : string) : py response :=
  Return {| data := Some [ {[ "plan"%string := JStr "pro" ]} ] |}.

Definition failing_backend (user_id : string) : py response :=
  Raise (Exception "permission denied for table subscriptions").

(** ** Readings of the exact identities on the binary64 values *)

(** "V1 <= V2 and V1 + solvent = V2" as a test on the floats the script
    computes from final volume [V2], stock [C1] and target [C2]. *)
Definition volumes_add_up (V2 C1 C2 : B64.float) : Prop :=
  exists v1_ul solvent_ul,
    B64.single_dilution_volumes V2 C1 C2 = Return (v1_ul, solvent_ul)
    /\ B64.leb v1_ul V2 = true
    /\ B64.eqb (B64.add v1_ul solvent_ul) V2 = true.

(** "0 <= leftover < aliquot_size" as a test on the floats the script
    computes. *)
Definition leftover_in_range (total aliquot dead : B64.float) : Prop :=
  exists n leftover,
    B64.aliquot_splitter total aliquot dead = Return (Result (n, leftover))
    /\ B64.leb (B64.of_int 0) leftover = true
    /\ B64.ltb leftover aliquot = true.

(** * The other branches of the script *)

(** [d[key]] on a dictionary kept as the list of its items, in insertion
    order; a missing key raises [KeyError]. *)
Fixpoint getitem {V : Type} (d : list (string * V)) (key : string) : py V :=
  match d with
  | [] => Raise (Exception "KeyError")
  | (k, v) :: d' => if String.eqb k key then Return v else getitem d' key
  end.

(** [list(d.keys())] *)
Definition keys {V : Type} (d : list (string * V)) : list string := fst <$> d.

(** ** Mode 6: % solutions (lines 604-617) *)

Inductive percent_type : Type := w_v | v_v.

(** What the branch tells to measure: grams for w/v, mL for v/v. *)
Inductive amount : Type :=
  | grams_needed (g : Q)
  | ml_needed (ml : Q).

Definition percent_solution (t : percent_type) (final_vol_ml percent : Q) : amount :=
  match t with
  | w_v => grams_needed ((percent / 100) * final_vol_ml)
  | v_v => ml_needed ((percent / 100) * final_vol_ml)
  end.

Definition quantity (a : amount) : Q :=
  match a with
  | grams_needed g => g
  | ml_needed ml => ml
  end.

(** ** Mode 7: molarity from mass and volume (lines 622-637) *)

Definition molarity_from_mass (mass_mg mw vol_ml : Q) : py (shown Q) :=
  let mass_g := mass_mg / 1000 in
  let vol_L := vol_ml / 1000 in
  if float_gt vol_L 0 then
    moles ← truediv mass_g mw;
    molarity ← truediv moles vol_L;
    mret (Result molarity)
  else
    mret (Error "Volume must be > 0").

(** ** Mode 8: OD / culture dilution (lines 642-654) *)

Record od_result : Type := {
  od_v1_ml : Q;
  od_diluent_ml : Q
}.

Definition od_dilution (od_start od_target final_vol_ml : Q) : py od_result :=
  v1_ml ← truediv (od_target * final_vol_ml) od_start;
  let diluent_ml := final_vol_ml - v1_ml in
  mret {| od_v1_ml := v1_ml; od_diluent_ml := diluent_ml |}.

(** ** Mode 9: master mix (lines 659-692) *)

Record mix_result : Type := {
  (** "Sum of components exceeds reaction volume" was shown *)
  mm_error : bool;
  mm_buf : Q;
  mm_dntp : Q;
  mm_primer_f : Q;
  mm_primer_r : Q;
  mm_polymerase : Q;
  mm_template : Q;
  (** the "Nuclease-free water" line, when it is written *)
  mm_water : option Q
}.

Definition master_mix (n_rxn : Z) (rxn_vol_ul overfill : Q)
    (buf dntp primer_f primer_r template polymerase : Q) : mix_result :=
  let per_rxn_sum := buf + dntp + primer_f + primer_r + template + polymerase in
  let other_needed := rxn_vol_ul - per_rxn_sum in
  let total_rxn := inject_Z n_rxn * overfill in
  {| mm_error := float_lt other_needed 0;
     mm_buf := buf * total_rxn;
     mm_dntp := dntp * total_rxn;
     mm_primer_f := primer_f * total_rxn;
     mm_primer_r := primer_r * total_rxn;
     mm_polymerase := polymerase * total_rxn;
     mm_template := template * inject_Z n_rxn;
     mm_water := if float_gt other_needed 0
                 then Some (other_needed * total_rxn) else None |}.

(** Everything the branch lists, added up. *)
Definition listed_total (r : mix_result) : Q :=
  mm_buf r + mm_dntp r + mm_primer_f r + mm_primer_r r + mm_polymerase r
  + mm_template r + match mm_water r with Some w => w | None => 0 end.

(** ** Mode 10: make an X-fold stock (lines 697-708) *)

Record stock_result : Type := {
  xs_V1 : Q;
  xs_solvent_ml : Q
}.

Definition make_x_stock (current_conc desired_mult final_vol_ml : Q) : py stock_result :=
  V1 ← truediv final_vol_ml desired_mult;
  let solvent_ml := final_vol_ml - V1 in
  mret {| xs_V1 := V1; xs_solvent_ml := solvent_ml |}.

(** ** Mode 11: acid / base dilution (lines 713-739) *)

Record reagent : Type := {
  rg_density : Q;
  rg_purity : Q;
  rg_mw : Q
}.

Definition reagents : list (string * reagent) :=
  [ ("HCl 37%"%string, {| rg_density := 1.19; rg_purity := 0.37; rg_mw := 36.46 |});
    ("H2SO4 98%"%string, {| rg_density := 1.84; rg_purity := 0.98; rg_mw := 98.08 |});
    ("NH3 25%"%string, {| rg_density := 0.91; rg_purity := 0.25; rg_mw := 17.03 |}) ].

(** [vol_conc_ml] *)
Definition acid_base_dilution (reagent_name : string) (target_m final_vol_L : Q) : py Q :=
  r ← getitem reagents reagent_name;
  let moles_needed := target_m * final_vol_L in
  let mass_pure := moles_needed * rg_mw r in
  mass_conc ← truediv mass_pure (rg_purity r);
  vol_conc_L ← truediv mass_conc (rg_density r);
  mret (vol_conc_L * 1000).

(** The molarity of the concentrated reagent itself: grams of pure
    substance per litre over the molecular weight. *)
Definition bottle_molarity (r : reagent) : Q :=
  (rg_density r * 1000 * rg_purity r) / rg_mw r.

(** ** Mode 14: cell seeding (lines 792-803) *)

Record seeding_result : Type := {
  cs_vol_cells_ml : Q;
  cs_vol_medium_ml : Q
}.

Definition cell_seeding (stock_density target_density : Z) (final_volume_ml : Q)
    : py seeding_result :=
  vol_cells_ml ← truediv (inject_Z target_density) (inject_Z stock_density);
  let vol_medium_ml := final_volume_ml - vol_cells_ml in
  mret {| cs_vol_cells_ml := vol_cells_ml; cs_vol_medium_ml := vol_medium_ml |}.

(** ** Strings

    [lower] is [str.lower] on ASCII text; [contains needle hay] is
    [needle in hay]. *)

Definition lower_ascii (a : ascii) : ascii :=
  let n := nat_of_ascii a in
  if (65 <=? n)%nat && (n <=? 90)%nat then ascii_of_nat (n + 32) else a.

Fixpoint lower (s : string) : string :=
  match s with
  | EmptyString => EmptyString
  | String a s' => String (lower_ascii a) (lower s')
  end.

Fixpoint contains (needle hay : string) : bool :=
  String.prefix needle hay
  || match hay with
     | EmptyString => false
     | String _ hay' => contains needle hay'
     end.

(** Truth value of a string: the empty string is false. *)
Definition truthy (s : string) : bool :=
  match s with
  | EmptyString => false
  | String _ _ => true
  end.

(** What [st.success], [st.info] and [st.warning] put on the page. *)
Inductive notice : Type :=
  | success (msg : string)
  | info (msg : string)
  | warning (msg : string).

(** ** Mode 17: storage / stability helper (lines 855-877) *)

Definition storage_dict : list (string * string) :=
  [ ("retinal"%string,
     "Protect from light, dissolve in dry EtOH or DMSO, aliquot, store at -20°C or below."%string);
    ("retinoic"%string,
     "Light-sensitive, store at -20°C, use fresh aliquots."%string);
    ("ampicillin"%string,
     "Store stock at -20°C, avoid repeated freeze–thaw."%string);
    ("pbs"%string, "Room temp or 4°C, 1 month."%string);
    ("tris"%string, "Room temp, 1 month."%string);
    ("pfa"%string,
     "4°C, protected from light, check for precipitate."%string) ].

(** [for key, val in items: if key in name.lower(): out = val; break] *)
Fixpoint first_rule (items : list (string * string)) (name : string) : option string :=
  match items with
  | [] => None
  | (key, val) :: items' =>
      if contains key (lower name) then Some val else first_rule items' name
  end.

Definition no_rule_found : string :=
  "No specific rule found. General rule: store at 4°C for short term, -20°C for long term, protect from light if colored/retinoid.".

Definition storage_helper (name : string) : notice :=
  match first_rule storage_dict name with
  | Some out => if truthy out then success out else info no_rule_found
  | None => info no_rule_found
  end.

(** ** From solid: the light-sensitivity warning (lines 496, 544-546) *)

Definition light_sensitive_words : list string :=
  [ "retinal"%string; "retinoic"%string; "rhodamine"%string; "fitc"%string ].

Definition looks_light_sensitive (compound_name : string) : bool :=
  let name_to_check := lower compound_name in
  existsb (fun word => contains word name_to_check) light_sensitive_words.

(** ** Session state, favorites and the gates *)

(** Values kept in [st.session_state]. *)
Inductive value : Type :=
  | VNone
  | VUser (id email : string)
  | VAuth (token : string)
  | VStr (s : string)
  | VList (l : list json).

Definition DEMO_USER_ID : string := "e29394b6-5f7a-4aa7-8d30-9155165733e3".

(** [if key not in st.session_state: st.session_state[key] = v] *)
Definition setdefault (key : string) (v : value) (s : gmap string value)
    : gmap string value :=
  match s !! key with
  | Some _ => s
  | None => <[key := v]> s
  end.

(** Python's [==] on JSON scalars: [None] equals [None], strings compare
    as strings, booleans and numbers by value ([True == 1]). *)
Definition json_num (j : json) : option Q :=
  match j with
  | JBool b => Some (if b then 1 else 0)
  | JNum q => Some q
  | JNull | JStr _ => None
  end.

Definition json_eqb (a b : json) : bool :=
  match a, b with
  | JNull, JNull => true
  | JStr s, JStr t => String.eqb s t
  | _, _ =>
      match json_num a, json_num b with
      | Some x, Some y => Qeq_bool x y
      | _, _ => false
      end
  end.

(** [x in l] *)
Definition json_in (x : json) (l : list json) : bool := existsb (json_eqb x) l.

(** [r[key]] on a row. *)
Definition row_getitem (r : gmap string json) (key : string) : py json :=
  match r !! key with
  | Some v => Return v
  | None => Raise (Exception "KeyError")
  end.

(** Lines 26-34.  [execute] stands for the query
    [supabase.table("reagents").select("*").eq("user_id", user_id)
    .order("created_at", desc=True).execute()]. *)
Definition load_reagents (execute : string -> py response) (user_id : string)
    : py (list (gmap string json)) :=
  resp ← execute user_id;
  mret (match data resp with
        | Some (r :: rs) => r :: rs
        | Some [] | None => []
        end).

(** Lines 40-42, on the list kept under ["fav_reagents"]. *)
Definition add_favorite (name : json) (fav : list json) : list json :=
  if json_in name fav then fav else fav ++ [name].

Definition merge_favorites (reagents_db : list (gmap string json)) (fav : list json)
    : py (list json) :=
  for_in reagents_db
    (fun r fav => name ← row_getitem r "name"; mret (add_favorite name fav))
    fav.

(** Lines 36-42: the favorites at the start of every run of the script.
    [fav] is the entry ["fav_reagents"] of the session state, [None] when
    the key is not there yet. *)
Definition startup_favorites (execute_reagents : string -> py response)
    (fav : option (list json)) : py (list json) :=
  let fav := match fav with Some l => l | None => [] end in
  reagents_db ← load_reagents execute_reagents DEMO_USER_ID;
  merge_favorites reagents_db fav.

(** Lines 99-144: which page a run of the script ends on. *)
Inductive page : Type := login_page | upgrade_notice | calculator.

Definition gate (execute_plan : string -> py response) (s : gmap string value)
    : py (gmap string value * page) :=
  let s := setdefault "auth_session" VNone s in
  let s := setdefault "user" VNone s in
  match s !! "user"%string with
  | Some VNone => mret (s, login_page)
  | Some (VUser id email) =>
      plan ← get_subscription_plan execute_plan id;
      mret (s, if json_eqb plan (JStr "pro") then calculator else upgrade_notice)
  | Some _ | None => Raise (Exception "AttributeError")
  end.

(** A run of the script down to the mode selector. *)
Definition run_script (execute_reagents execute_plan : string -> py response)
    (fav : option (list json)) (s : gmap string value)
    : py (list json * gmap string value * page) :=
  fav' ← startup_favorites execute_reagents fav;
  sp ← gate execute_plan s;
  mret (fav', sp.1, sp.2).

(** Lines 112-119: the Login button.  [sign_in] stands for
    [supabase.auth.sign_in_with_password]; it yields the session and the
    user of the response. *)
Inductive click_outcome : Type :=
  | rerun
  | login_failed.

Definition login_click (sign_in : string -> string -> py (value * value))
    (email password : string) (s : gmap string value)
    : gmap string value * click_outcome :=
  match sign_in email password with
  | Return (auth_session, user) =>
      (<["user"%string := user]> (<["auth_session"%string := auth_session]> s), rerun)
  | Raise e => (s, login_failed)
  end.

(** Lines 61-70: [logout], up to its [st.rerun()]. *)
Definition logout (sign_out : py unit) (s : gmap string value)
    : py (gmap string value) :=
  _ ← try_except sign_out (fun e => mret tt);
  mret (foldl (fun s key => if bool_decide (is_Some (s !! key)) then delete key s else s)
              s [ "user"%string; "plan"%string ]).

(** Lines 549-567: the "Save this reagent to my favorites" button. *)
Record reagent_record : Type := {
  rr_user_id : string;
  rr_name : string;
  rr_mw : Q;
  rr_note : string
}.

(** The favorites after the click, and what the rest of the handler does:
    the notice it shows, if any, or the exception of the insert. *)
Definition save_favorite (insert : reagent_record -> py unit)
    (pressed : bool) (compound_name : string) (mw : Q) (fav : list json)
    : list json * py (option notice) :=
  if pressed then
    if truthy compound_name then
      (add_favorite (JStr compound_name) fav,
       _ ← insert {| rr_user_id := DEMO_USER_ID; rr_name := compound_name;
                     rr_mw := mw; rr_note := "from app" |};
       mret (Some (success (String.append "Saved '"
                              (String.append compound_name
                                 "' to Supabase + session.")))))
    else (fav, mret None)
  else (fav, mret (Some (warning "Give the compound a name first."))).

(** The same settings with another final volume. *)
Definition with_well_volume (g : settings) (V : Q) : settings :=
  {| well_volume := V;
     max_vehicle := max_vehicle g;
     vehicle_type := vehicle_type g;
     stock_vehicle_percent := stock_vehicle_percent g |}.

(** A session state of a logged-in user, for the worked examples. *)
Definition logged_in_session : gmap string value :=
  {[ "user"%string := VUser "e29394b6" "ada@example.org" ]}.

(** Identity providers for the worked examples: one that knows a single
    account, one that is down. *)
Definition one_account (email password : string) : py (value * value) :=
  if String.eqb email "ada@example.org" && String.eqb password "s3cret"
  then Return (VAuth "token", VUser "e29394b6" "ada@example.org")
  else Raise (Exception "Invalid login credentials").

(** Rows of the reagents table for the worked examples. *)
Definition retinal_row : gmap string json :=
  {[ "name"%string := JStr "retinal"; "mw"%string := JNum 284.44 ]}.

Definition nameless_row : gmap string json :=
  {[ "mw"%string := JNum 18.02 ]}.

Definition reagents_backend (user_id : string) : py response :=
  Return {| data := Some [ retinal_row; retinal_row ] |}.

(** An insert into the reagents table that is refused. *)
Definition insert_refused (row : reagent_record) : py unit :=
  Raise (Exception "new row violates row-level security policy").

(** * Properties *)

(** ** Outcomes, comparisons, division *)

Lemma float_lt_spec (x y : Q) : float_lt x y = true <-> x < y.
Proof.
  unfold float_lt. rewrite negb_true_iff. split.
  - intros H. apply Qnot_le_lt. intros Hle.
    apply Qle_bool_iff in Hle. congruence.
  - intros H. destruct (Qle_bool y x) eqn:E; [|reflexivity].
    apply Qle_bool_iff in E. lra.
Qed.

Lemma float_lt_false (x y : Q) : float_lt x y = false <-> y <= x.
Proof.
  unfold float_lt. rewrite negb_false_iff. apply Qle_bool_iff.
Qed.

Lemma float_gt_spec (x y : Q) : float_gt x y = true <-> y < x.
Proof. apply (float_lt_spec y x). Qed.

Lemma float_gt_false (x y : Q) : float_gt x y = false <-> x <= y.
Proof. apply (float_lt_false y x). Qed.

Lemma float_le_spec (x y : Q) : float_le x y = true <-> x <= y.
Proof. apply Qle_bool_iff. Qed.

Lemma truediv_Return (x y : Q) : ~ y == 0 -> truediv x y = Return (x / y).
Proof.
  intros Hy. unfold truediv.
  destruct (Qeq_bool y 0) eqn:E; [|reflexivity].
  apply Qeq_bool_iff in E. contradiction.
Qed.

Lemma truediv_inv (x y r : Q) :
  truediv x y = Return r -> r = x / y /\ ~ y == 0.
Proof.
  unfold truediv. destruct (Qeq_bool y 0) eqn:E; [discriminate|].
  intros [= <-]. split; [reflexivity|]. now apply Qeq_bool_neq.
Qed.

(** ** Rounding *)

Lemma round_half_even_comp (s t : Q) :
  s == t -> round_half_even s = round_half_even t.
Proof.
  intros H. unfold round_half_even.
  rewrite (Qfloor_comp _ _ H).
  assert (Hc : Qcompare (s - inject_Z (Qfloor t)) (1 # 2)
               = Qcompare (t - inject_Z (Qfloor t)) (1 # 2)).
  { apply Qcompare_comp; [rewrite H|]; reflexivity. }
  rewrite Hc. reflexivity.
Qed.

Lemma round_comp (x y : Q) (n : nat) : x == y -> round x n = round y n.
Proof.
  intros H. unfold round.
  rewrite (round_half_even_comp (x * inject_Z (10 ^ Z.of_nat n))
                                (y * inject_Z (10 ^ Z.of_nat n)));
    [reflexivity|].
  rewrite H. reflexivity.
Qed.

Lemma round_half_even_nonneg (s : Q) : 0 <= s -> (0 <= round_half_even s)%Z.
Proof.
  intros H. unfold round_half_even.
  assert (Hf : (0 <= Qfloor s)%Z).
  { change 0%Z with (Qfloor 0). now apply Qfloor_resp_le. }
  destruct (Qcompare _ _); [destruct (Z.even _)| |]; lia.
Qed.

Lemma pow10_pos (n : nat) : 0 < inject_Z (10 ^ Z.of_nat n).
Proof.
  change 0 with (inject_Z 0). rewrite <- Zlt_Qlt.
  apply Z.pow_pos_nonneg; lia.
Qed.

Lemma round_nonneg (x : Q) (n : nat) : 0 <= x -> 0 <= round x n.
Proof.
  intros H. unfold round.
  pose proof (pow10_pos n) as Hp.
  apply Qle_shift_div_l; [exact Hp|].
  rewrite Qmult_0_l. change 0 with (inject_Z 0). rewrite <- Zle_Qle.
  apply round_half_even_nonneg.
  apply Qmult_le_0_compat; [exact H | now apply Qlt_le_weak].
Qed.

Lemma round_half_even_0 : round_half_even 0 = 0%Z.
Proof. reflexivity. Qed.

Lemma round_zero (x : Q) (n : nat) : x == 0 -> round x n == 0.
Proof.
  intros H. unfold round.
  rewrite (round_half_even_comp (x * inject_Z (10 ^ Z.of_nat n)) 0).
  - rewrite round_half_even_0. pose proof (pow10_pos n) as Hp.
    field. lra.
  - rewrite H. ring.
Qed.

(** ** Loops *)

Lemma append_row_Return {R : Type} (row_of : Q -> py R) (c : Q) (table : list R) (r : R) :
  row_of c = Return r -> append_row row_of c table = Return (table ++ [r]).
Proof. intros H. unfold append_row. now rewrite H. Qed.

Lemma append_row_inv {R : Type} (row_of : Q -> py R) (c : Q) (table res : list R) :
  append_row row_of c table = Return res ->
  exists r, row_of c = Return r /\ res = table ++ [r].
Proof.
  unfold append_row. destruct (row_of c) as [r|e]; cbn; [|discriminate].
  intros [= <-]. now exists r.
Qed.

(** A loop that appends one row per element: if the row is computed for
    every element, the table is the rows in order. *)
Lemma for_in_append_rows {R : Type} (row_of : Q -> py R) (h : Q -> R)
    (concs : list Q) (table : list R) :
  Forall (fun c => row_of c = Return (h c)) concs ->
  for_in concs (append_row row_of) table = Return (table ++ (h <$> concs)).
Proof.
  intros H. revert table.
  induction H as [|c concs Hc _ IH]; intros table; cbn [for_in].
  - cbn. now rewrite app_nil_r.
  - rewrite (append_row_Return _ _ _ _ Hc). cbn [mbind py_bind].
    rewrite IH. cbn. now rewrite <- app_assoc.
Qed.

(** Loop invariants: what holds of the loop variables before the loop and
    is kept by every pass that returns holds when the loop returns. *)
Lemma for_in_invariant {A S : Type} (I : S -> Prop) (xs : list A)
    (body : A -> S -> py S) (s s' : S) :
  I s ->
  (forall x t t', I t -> body x t = Return t' -> I t') ->
  for_in xs body s = Return s' -> I s'.
Proof.
  intros Hs Hbody. revert s Hs.
  induction xs as [|x xs IH]; intros s Hs; cbn [for_in].
  - now intros [= <-].
  - destruct (body x s) as [t|e] eqn:E; cbn [mbind py_bind]; [|discriminate].
    apply IH. now apply (Hbody x s).
Qed.

(** ** Mode 1: single dilution *)

Lemma conc_unit_eqb_refl (u : conc_unit) : conc_unit_eqb u u = true.
Proof. destruct u; reflexivity. Qed.

(** The result the branch shows when both divisions go through. *)
Lemma single_dilution_Result (g : settings) (C1 C2 : Q) (u : conc_unit) :
  ~ C1 == 0 -> ~ well_volume g == 0 ->
  single_dilution g C1 u C2 u =
    Return (Result {|
      sd_v1_ul := (C2 * well_volume g) / C1;
      sd_solvent_ul :=
        (if float_lt (well_volume g - (C2 * well_volume g) / C1) 0
         then 0 else well_volume g - (C2 * well_volume g) / C1);
      sd_vehicle_percent :=
        (((C2 * well_volume g) / C1) * vehicle_frac g / well_volume g) * 100;
      sd_vehicle_warning :=
        float_gt ((((C2 * well_volume g) / C1) * vehicle_frac g / well_volume g) * 100)
           (max_vehicle g);
      sd_c_intermediate :=
        (if float_lt ((C2 * well_volume g) / C1) min_pip
         then Some ((C2 * well_volume g) / min_pip) else None)
    |}).
Proof.
  intros HC1 HV. unfold single_dilution.
  rewrite conc_unit_eqb_refl. cbn [negb].
  rewrite (truediv_Return _ C1 HC1). cbn [mbind py_bind].
  rewrite (truediv_Return _ (well_volume g) HV). reflexivity.
Qed.

Lemma v1_le_volume (C1 C2 V : Q) :
  0 < C1 -> 0 <= V -> C2 <= C1 -> (C2 * V) / C1 <= V.
Proof.
  intros HC1 HV Hle. apply Qle_shift_div_r; [exact HC1|].
  nra.
Qed.

(** C1 (amended). Single dilution computes the stock volume as
    (C2 * V2) / C1 and the solvent as V2 - V1, clamped at 0.  In exact
    arithmetic, for positive C1, C2 and V2 with C1 >= C2, the stock volume
    does not exceed the final volume V2 and stock volume plus solvent volume
    make up V2. *)
Theorem single_dilution_exact_volumes (g : settings) (C1 C2 : Q) (u : conc_unit) :
  0 < C1 -> 0 < C2 -> 0 < well_volume g -> C2 <= C1 ->
  exists r,
    single_dilution g C1 u C2 u = Return (Result r)
    /\ sd_v1_ul r == (C2 * well_volume g) / C1
    /\ sd_v1_ul r <= well_volume g
    /\ sd_v1_ul r + sd_solvent_ul r == well_volume g.
Proof.
  intros HC1 HC2 HV Hle.
  eexists. split.
  - apply single_dilution_Result; lra.
  - cbn [sd_v1_ul sd_solvent_ul].
    assert (Hv1 : (C2 * well_volume g) / C1 <= well_volume g)
      by (apply v1_le_volume; lra).
    split; [reflexivity|]. split; [exact Hv1|].
    destruct (float_lt _ 0) eqn:E.
    + apply float_lt_spec in E. lra.
    + ring.
Qed.

(** The worked example: stock 25 mM, target 4 mM, 300 µl. *)
Lemma single_dilution_exact_volumes_example :
  exists r,
    single_dilution cell_culture_300 25 mM 4 mM = Return (Result r)
    /\ sd_v1_ul r == 48
    /\ sd_solvent_ul r == 252.
Proof.
  destruct (single_dilution_exact_volumes cell_culture_300 25 4 mM)
    as (r & Hr & Hv1 & Hle & Hsum); try (cbn; lra).
  assert (H48 : sd_v1_ul r == 48) by (rewrite Hv1; reflexivity).
  exists r. split; [exact Hr|]. split; [exact H48|].
  cbn [well_volume cell_culture_300] in Hsum. lra.
Defined.

(** ** Mode 2: serial dilutions *)

Lemma serial_body_Return (g : settings) (F final : Q) (i : Z)
    (rows : list serial_row) (cur : Q) :
  ~ cur == 0 -> ~ F == 0 -> ~ final == 0 ->
  serial_body g F final i (rows, cur)
    = Return (rows ++ [serial_row_at g F final i cur], cur / F).
Proof.
  intros Hc HF Hf. unfold serial_body.
  rewrite (truediv_Return cur F HF). cbn [mbind py_bind].
  rewrite (truediv_Return _ cur Hc). cbn [mbind py_bind].
  rewrite (truediv_Return _ final Hf). reflexivity.
Qed.

Lemma Qdiv_nonzero (x y : Q) : ~ x == 0 -> ~ y == 0 -> ~ x / y == 0.
Proof.
  intros Hx Hy H. apply Hx.
  assert (E : x == (x / y) * y) by (field; exact Hy).
  rewrite E, H. ring.
Qed.

Lemma conc_after_pow (c F : Q) (k : nat) :
  ~ F == 0 -> conc_after c F k == c / F ^ Z.of_nat k.
Proof.
  intros HF. revert c. induction k as [|k IH]; intros c.
  - cbn [conc_after]. change (F ^ Z.of_nat 0) with 1. field.
  - cbn [conc_after]. rewrite IH.
    rewrite Nat2Z.inj_succ, <- Z.add_1_r, Qpower_plus by exact HF.
    change (F ^ 1) with F.
    pose proof (Qpower_not_0 F (Z.of_nat k) HF).
    field. split; assumption.
Qed.

Lemma conc_after_succ (c F : Q) (k : nat) :
  conc_after c F (S k) = conc_after c F k / F.
Proof.
  revert c. induction k as [|k IH]; intros c; [reflexivity|].
  change (conc_after c F (S (S k))) with (conc_after (c / F) F (S k)).
  rewrite IH. reflexivity.
Qed.

Lemma conc_after_nonzero (c F : Q) (k : nat) :
  ~ c == 0 -> ~ F == 0 -> ~ conc_after c F k == 0.
Proof.
  intros Hc HF. revert c Hc. induction k as [|k IH]; intros c Hc; cbn.
  - exact Hc.
  - apply IH. now apply Qdiv_nonzero.
Qed.

(** The loop from pass [a] on, [n] passes. *)
Lemma serial_loop_Return (g : settings) (F final : Q) (n a : nat)
    (rows : list serial_row) (cur : Q) :
  ~ cur == 0 -> ~ F == 0 -> ~ final == 0 ->
  for_in (map Z.of_nat (seq a n)) (serial_body g F final) (rows, cur)
  = Return (rows ++ map (fun k => serial_row_at g F final (Z.of_nat (a + k))
                                    (conc_after cur F k)) (seq 0 n),
            conc_after cur F n).
Proof.
  intros Hc HF Hf. revert a rows cur Hc.
  induction n as [|n IH]; intros a rows cur Hc.
  - cbn. now rewrite app_nil_r.
  - cbn [seq map for_in].
    rewrite serial_body_Return by assumption. cbn [mbind py_bind].
    rewrite IH by now apply Qdiv_nonzero.
    rewrite <- app_assoc. cbn [app conc_after].
    rewrite <- seq_shift, map_map, Nat.add_0_r.
    do 4 f_equal. apply map_ext. intros k. cbn [conc_after].
    now rewrite Nat.add_succ_r.
Qed.

Lemma serial_dilutions_Return (g : settings) (start F final : Q) (N : Z) :
  ~ start == 0 -> ~ F == 0 -> ~ final == 0 ->
  serial_dilutions g start N F final
  = Return (map (fun k => serial_row_at g F final (Z.of_nat k)
                             (conc_after start F k)) (seq 0 (Z.to_nat N)),
            conc_after start F (Z.to_nat N)).
Proof.
  intros. unfold serial_dilutions, range.
  now rewrite serial_loop_Return.
Qed.

Lemma serial_rows_lookup (g : settings) (start F final : Q) (n k : nat) :
  (k < n)%nat ->
  map (fun k => serial_row_at g F final (Z.of_nat k) (conc_after start F k))
      (seq 0 n) !! k
  = Some (serial_row_at g F final (Z.of_nat k) (conc_after start F k)).
Proof.
  intros Hk.
  change (map ?f ?l) with (f <$> l).
  rewrite list_lookup_fmap, lookup_seq_lt by exact Hk. reflexivity.
Qed.

Lemma serial_row_at_solvent_nonneg (g : settings) (F final : Q) (i : Z) (cur : Q) :
  ~ cur == 0 -> 1 <= F -> 0 <= final ->
  0 <= sr_add_solvent_ul (serial_row_at g F final i cur).
Proof.
  intros Hc HF Hf. cbn [serial_row_at sr_add_solvent_ul].
  apply round_nonneg.
  assert (E : cur / F * final / cur == final / F) by (field; split; lra).
  rewrite E.
  assert (final / F <= final); [|lra].
  apply Qle_shift_div_r; [lra|]. nra.
Qed.




Lemma serial_body_inv (g : settings) (F final : Q) (i : Z)
    (rows rows' : list serial_row) (cur cur' : Q) :
  serial_body g F final i (rows, cur) = Return (rows', cur') ->
  rows' = rows ++ [serial_row_at g F final i cur].
Proof.
  unfold serial_body.
  destruct (truediv cur F) as [next|] eqn:E1; cbn [mbind py_bind]; [|discriminate].
  destruct (truediv (next * final) cur) as [v1|] eqn:E2;
    cbn [mbind py_bind]; [|discriminate].
  destruct (truediv (v1 * vehicle_frac g) final) as [q|] eqn:E3;
    cbn [mbind py_bind]; [|discriminate].
  apply truediv_inv in E1 as [-> _].
  apply truediv_inv in E2 as [-> Hc].
  apply truediv_inv in E3 as [-> _].
  now intros [= <- _].
Qed.



(** ** Mode 3 and mode 15: the tables *)

Lemma series_row_of_Return (g : settings) (stock : Q) (reps : Z) (overfill c : Q) :
  ~ stock == 0 -> ~ well_volume g == 0 ->
  series_row_of g stock reps overfill c
    = Return (series_row_at g stock reps overfill c).
Proof.
  intros Hs HV. unfold series_row_of.
  rewrite (truediv_Return _ stock Hs). cbn [mbind py_bind].
  rewrite (truediv_Return _ (well_volume g) HV). reflexivity.
Qed.

Lemma series_row_of_inv (g : settings) (stock : Q) (reps : Z) (overfill c : Q)
    (r : series_row) :
  series_row_of g stock reps overfill c = Return r ->
  r = series_row_at g stock reps overfill c.
Proof.
  unfold series_row_of.
  destruct (truediv (c * well_volume g) stock) as [v1|] eqn:E1;
    cbn [mbind py_bind]; [|discriminate].
  destruct (truediv (v1 * vehicle_frac g) (well_volume g)) as [q|] eqn:E2;
    cbn [mbind py_bind]; [|discriminate].
  apply truediv_inv in E1 as [-> _]. apply truediv_inv in E2 as [-> _].
  now intros [= <-].
Qed.

Lemma experiment_series_Return (g : settings) (concs : list Q)
    (stock : Q) (reps : Z) (overfill : Q) :
  ~ stock == 0 -> ~ well_volume g == 0 ->
  experiment_series g concs stock reps overfill
    = Return (series_row_at g stock reps overfill <$> concs).
Proof.
  intros Hs HV. unfold experiment_series.
  rewrite (for_in_append_rows _ (series_row_at g stock reps overfill));
    [reflexivity|].
  apply Forall_forall. intros c _. now apply series_row_of_Return.
Qed.

Lemma plate_row_of_Return (g : settings) (stock cap c : Q) :
  ~ stock == 0 -> ~ well_volume g == 0 ->
  plate_row_of g stock cap c = Return (plate_row_at g stock cap c).
Proof.
  intros Hs HV. unfold plate_row_of.
  rewrite (truediv_Return _ stock Hs). cbn [mbind py_bind].
  rewrite (truediv_Return _ (well_volume g) HV). reflexivity.
Qed.

Lemma plate_row_of_inv (g : settings) (stock cap c : Q) (r : plate_row) :
  plate_row_of g stock cap c = Return r -> r = plate_row_at g stock cap c.
Proof.
  unfold plate_row_of.
  destruct (truediv (c * well_volume g) stock) as [v1|] eqn:E1;
    cbn [mbind py_bind]; [|discriminate].
  destruct (truediv (v1 * vehicle_frac g) (well_volume g)) as [q|] eqn:E2;
    cbn [mbind py_bind]; [|discriminate].
  apply truediv_inv in E1 as [-> _]. apply truediv_inv in E2 as [-> _].
  now intros [= <-].
Qed.

Lemma plate_dmso_checker_Return (g : settings) (concs : list Q) (stock cap : Q) :
  ~ stock == 0 -> ~ well_volume g == 0 ->
  plate_dmso_checker g concs stock cap
    = Return (plate_row_at g stock cap <$> concs).
Proof.
  intros Hs HV. unfold plate_dmso_checker.
  rewrite (for_in_append_rows _ (plate_row_at g stock cap)); [reflexivity|].
  apply Forall_forall. intros c _. now apply plate_row_of_Return.
Qed.

(** Every row of a returned table is the row of some concentration. *)
Lemma append_rows_Forall {R : Type} (row_of : Q -> py R) (P : R -> Prop)
    (concs : list Q) (rows : list R) :
  (forall c r, row_of c = Return r -> P r) ->
  for_in concs (append_row row_of) [] = Return rows ->
  Forall P rows.
Proof.
  intros HP. apply (for_in_invariant (Forall P)); [constructor|].
  intros c t t' Ht Hbody.
  apply append_row_inv in Hbody as (r & Hr & ->).
  apply Forall_app. split; [exact Ht|].
  constructor; [now apply (HP c)|constructor].
Qed.

Lemma single_dilution_inv (g : settings) (C1 C2 : Q) (u1 u2 : conc_unit)
    (r : single_result) :
  single_dilution g C1 u1 C2 u2 = Return (Result r) ->
  sd_vehicle_percent r
    = (sd_v1_ul r * vehicle_frac g / well_volume g) * 100
  /\ sd_vehicle_warning r = float_gt (sd_vehicle_percent r) (max_vehicle g).
Proof.
  unfold single_dilution.
  destruct (negb (conc_unit_eqb u1 u2)); [discriminate|].
  destruct (truediv (C2 * well_volume g) C1) as [v1|] eqn:E1;
    cbn [mbind py_bind]; [|discriminate].
  destruct (truediv (v1 * vehicle_frac g) (well_volume g)) as [q|] eqn:E2;
    cbn [mbind py_bind]; [|discriminate].
  apply truediv_inv in E2 as [-> _].
  intros [= <-]. split; reflexivity.
Qed.

Lemma Forall2_fmap_same {A B : Type} (f : A -> B) (P : A -> B -> Prop) (l : list A) :
  (forall x, P x (f x)) -> Forall2 P l (f <$> l).
Proof. intros H. induction l; cbn; constructor; auto. Qed.

Lemma Forall2_fmap_both {A B : Type} (f f' : A -> B) (P : B -> B -> Prop) (l : list A) :
  (forall x, P (f x) (f' x)) -> Forall2 P (f <$> l) (f' <$> l).
Proof. intros H. induction l; cbn; constructor; auto. Qed.



(** ** No vehicle in the stock *)

Lemma vehicle_frac_zero (g : settings) :
  vehicle_type g = Aqueous_none \/ stock_vehicle_percent g == 0 ->
  vehicle_frac g = 0.
Proof.
  intros [H|H]; unfold vehicle_frac.
  - now rewrite H.
  - assert (E : float_gt (stock_vehicle_percent g) 0 = false)
      by (apply float_gt_false; lra).
    rewrite E. now rewrite andb_false_r.
Qed.

Lemma zero_vehicle_percent (v1 V : Q) : (v1 * 0 / V) * 100 == 0.
Proof. unfold Qdiv. ring. Qed.



(** ** Mode 16: aliquot splitter *)

(** C3 (amended). With a positive aliquot size: when the dead volume is
    below the total volume, the number of aliquots is computed as
    floor((total - dead) / size) and, in exact arithmetic,
    n * size + leftover = total - dead and 0 <= leftover < size; when the
    dead volume is at least the total volume the branch shows an error and
    neither a count nor a leftover. *)
Theorem aliquot_splitter_exact_split (total aliquot dead : Q) :
  0 < aliquot ->
  (dead < total ->
   exists r,
     aliquot_splitter total aliquot dead = Return (Result r)
     /\ n_aliquots r = Qfloor ((total - dead) / aliquot)
     /\ inject_Z (n_aliquots r) * aliquot + leftover r == total - dead
     /\ 0 <= leftover r
     /\ leftover r < aliquot)
  /\ (total <= dead ->
      exists msg, aliquot_splitter total aliquot dead = Return (Error msg)).
Proof.
  intros Ha. split; intros H; unfold aliquot_splitter.
  - assert (E : float_le (total - dead) 0 = false).
    { destruct (float_le (total - dead) 0) eqn:E; [|reflexivity].
      apply float_le_spec in E. lra. }
    rewrite E. rewrite truediv_Return by lra. cbn [mbind py_bind].
    eexists. split; [reflexivity|].
    cbn [n_aliquots leftover].
    set (q := (total - dead) / aliquot).
    assert (Hq : q * aliquot == total - dead) by (unfold q; field; lra).
    pose proof (Qfloor_le q) as Hlo. pose proof (Qlt_floor q) as Hhi.
    rewrite inject_Z_plus in Hhi. change (inject_Z 1) with 1 in Hhi.
    split; [reflexivity|]. split; [ring|].
    split; nra.
  - assert (E : float_le (total - dead) 0 = true) by (apply float_le_spec; lra).
    rewrite E. eexists. reflexivity.
Qed.

(** 2.0 mL less 0.5 mL dead volume in 0.3 mL aliquots: 5 and nothing left;
    0.4 mL with 0.5 mL dead volume: an error. *)
Lemma aliquot_splitter_exact_split_example :
  (exists r, aliquot_splitter 2 0.3 0.5 = Return (Result r)
             /\ n_aliquots r = 5%Z /\ leftover r == 0)
  /\ (exists msg, aliquot_splitter 0.4 0.3 0.5 = Return (Error msg)).
Proof.
  split.
  - destruct (aliquot_splitter_exact_split 2 0.3 0.5) as [Hok _]; [lra|].
    destruct Hok as (r & Hr & Hn & Hsum & _); [lra|].
    assert (E : n_aliquots r = 5%Z) by (rewrite Hn; reflexivity).
    exists r. split; [exact Hr|]. split; [exact E|].
    rewrite E in Hsum. change (inject_Z 5) with 5 in Hsum. lra.
  - destruct (aliquot_splitter_exact_split 0.4 0.3 0.5) as [_ Hfail]; [lra|].
    apply Hfail. lra.
Defined.

(** ** Mode 5: unit converter *)



(** ** Mode 13: Beer-Lambert *)

(** C5. For absorbance >= 0 and positive extinction coefficient and
    pathlength the concentration is A / (epsilon * pathlength); absorbance
    0.5, epsilon 50000 and pathlength 1 give 0.00001 M, and on the floats
    exactly the float 1e-05; when epsilon or the pathlength is not positive
    the branch shows an error and no concentration. *)
Theorem beer_lambert_concentration (A epsilon pathlength : Q) :
  (0 <= A -> 0 < epsilon -> 0 < pathlength ->
   exists conc_M,
     beer_lambert A epsilon pathlength = Return (Result conc_M)
     /\ conc_M == A / (epsilon * pathlength))
  /\ (exists conc_M,
        beer_lambert 0.5 50000 1 = Return (Result conc_M)
        /\ conc_M == 0.00001)
  /\ B64.beer_lambert (B64.decimal 5 1) (B64.decimal 50000 0) (B64.decimal 1 0)
     = Return (Result (B64.decimal 1 5))
  /\ (epsilon <= 0 \/ pathlength <= 0 ->
      exists msg, beer_lambert A epsilon pathlength = Return (Error msg)).
Proof.
  split; [|split; [|split]].
  - intros _ He Hp. unfold beer_lambert.
    assert (E1 : float_gt epsilon 0 = true) by now apply float_gt_spec.
    assert (E2 : float_gt pathlength 0 = true) by now apply float_gt_spec.
    rewrite E1, E2. cbn [andb].
    rewrite truediv_Return by nra. cbn [mbind py_bind].
    eexists. split; reflexivity.
  - eexists. split; reflexivity.
  - vm_compute. reflexivity.
  - intros H. unfold beer_lambert.
    assert (E : float_gt epsilon 0 && float_gt pathlength 0 = false).
    { apply andb_false_iff. destruct H as [H|H]; [left|right];
        now apply float_gt_false. }
    rewrite E. eexists. reflexivity.
Qed.

Lemma beer_lambert_concentration_example :
  (exists conc_M,
     beer_lambert 1.2 43824 0.1 = Return (Result conc_M)
     /\ conc_M == 1.2 / 4382.4)
  /\ (exists msg, beer_lambert 0.5 0 1 = Return (Error msg)).
Proof.
  split.
  - destruct (beer_lambert_concentration 1.2 43824 0.1) as [Hok _].
    destruct Hok as (c & Hc & Hval); try lra.
    exists c. split; [exact Hc|]. rewrite Hval. reflexivity.
  - destruct (beer_lambert_concentration 0.5 0 1) as (_ & _ & _ & Hfail).
    apply Hfail. left. lra.
Defined.

(** ** Mode 4: from solid *)




(** ** Subscription lookup *)

(** C6. The lookup always returns, whatever the backend does: the value
    stored under "plan" in the first row when there is one, and "free"
    when the query raises, when the response carries no rows, and when the
    first row has no "plan" entry. *)
Theorem get_subscription_plan_never_raises
    (execute : string -> py response) (user_id : string) :
  (exists plan, get_subscription_plan execute user_id = Return plan)
  /\ (forall r rs plan,
        execute user_id = Return {| data := Some (r :: rs) |} ->
        r !! "plan"%string = Some plan ->
        get_subscription_plan execute user_id = Return plan)
  /\ (forall e,
        execute user_id = Raise e ->
        get_subscription_plan execute user_id = Return (JStr "free"))
  /\ (execute user_id = Return {| data := None |} ->
      get_subscription_plan execute user_id = Return (JStr "free"))
  /\ (execute user_id = Return {| data := Some [] |} ->
      get_subscription_plan execute user_id = Return (JStr "free"))
  /\ (forall r rs,
        execute user_id = Return {| data := Some (r :: rs) |} ->
        r !! "plan"%string = None ->
        get_subscription_plan execute user_id = Return (JStr "free")).
Proof.
  unfold get_subscription_plan.
  split; [|split; [|split; [|split; [|split]]]].
  - destruct (execute user_id) as [[[[|r rs]|]]|e]; cbn;
      try (eexists; reflexivity).
    destruct (r !! "plan"%string); eexists; reflexivity.
  - intros r rs plan -> Hplan. cbn. now rewrite Hplan.
  - now intros e ->.
  - now intros ->.
  - now intros ->.
  - intros r rs -> Hplan. cbn. now rewrite Hplan.
Qed.

Lemma get_subscription_plan_never_raises_example :
  get_subscription_plan pro_backend "e29394b6" = Return (JStr "pro")
  /\ get_subscription_plan failing_backend "e29394b6" = Return (JStr "free").
Proof.
  split.
  - destruct (get_subscription_plan_never_raises pro_backend "e29394b6")
      as (_ & Hstored & _).
    apply (Hstored {[ "plan"%string := JStr "pro" ]} []); reflexivity.
  - destruct (get_subscription_plan_never_raises failing_backend "e29394b6")
      as (_ & _ & Hraise & _).
    apply (Hraise (Exception "permission denied for table subscriptions")).
    reflexivity.
Defined.

(** ** The script's own arithmetic at given inputs *)

(** C1 as stated fails on the floats: with stock and target both 0.1 and
    a final volume of 3, (0.1 * 3.0) / 0.1 is 3.0000000000000004, above the
    final volume; the solvent is clamped to 0.0 and the two do not add up
    to 3.0. *)
Lemma single_dilution_binary64_overshoot :
  ~ volumes_add_up (B64.decimal 3 0) (B64.decimal 1 1) (B64.decimal 1 1).
Proof.
  intros (v1 & solvent & Hrun & Hle & _).
  vm_compute in Hrun. injection Hrun as <- <-.
  vm_compute in Hle. discriminate Hle.
Qed.

(** Rounding alone, without the clamp: stock 908, target 70, final volume
    846.6 give 65.26651982378854 and 781.3334801762114, whose float sum is
    846.5999999999999. *)
Lemma single_dilution_binary64_sum_off :
  exists v1_ul solvent_ul,
    B64.single_dilution_volumes
      (B64.decimal 8466 1) (B64.decimal 908 0) (B64.decimal 70 0)
      = Return (v1_ul, solvent_ul)
    /\ B64.ltb v1_ul (B64.decimal 8466 1) = true
    /\ B64.ltb (B64.add v1_ul solvent_ul) (B64.decimal 8466 1) = true.
Proof.
  exists (S754_finite false 4592723036846612 (-46)),
         (S754_finite false 6872681972995466 (-43)).
  split; [|split]; vm_compute; reflexivity.
Qed.

(** The worked example is exact on the floats too: 48.0 and 252.0. *)
Lemma single_dilution_binary64_example :
  B64.single_dilution_volumes
    (B64.decimal 300 0) (B64.decimal 25 0) (B64.decimal 4 0)
  = Return (B64.decimal 48 0, B64.decimal 252 0).
Proof. vm_compute. reflexivity. Qed.

(** C3 as stated fails on the floats: 42.9 mL in aliquots of 0.39 mL is
    110 aliquots in exact arithmetic, but 42.9 / 0.39 is 109.99999999999999
    and the script reports 109 aliquots and a leftover of
    0.39000000000000057, not below the aliquot size. *)
Lemma aliquot_splitter_binary64_leftover :
  ~ leftover_in_range (B64.decimal 429 1) (B64.decimal 39 2) (B64.decimal 0 1).
Proof.
  intros (n & leftover & Hrun & _ & Hlt).
  vm_compute in Hrun. injection Hrun as <- <-.
  vm_compute in Hlt. discriminate Hlt.
Qed.

(** And the leftover can come out negative: 47.0 mL less 0.2 mL dead
    volume in aliquots of 0.02 mL leaves -7.105427357601002e-15. *)
Lemma aliquot_splitter_binary64_negative :
  exists n leftover,
    B64.aliquot_splitter (B64.decimal 47 0) (B64.decimal 2 2) (B64.decimal 2 1)
      = Return (Result (n, leftover))
    /\ n = 2340%Z
    /\ B64.ltb leftover (B64.of_int 0) = true.
Proof.
  exists 2340%Z, (S754_finite true 4503599627370496 (-99)).
  split; [|split]; vm_compute; reflexivity.
Qed.

(** The unit converter on the floats: 2.5 mg/mL at 284.44 g/mol goes to
    8.789199831247362 mM and comes back as 2.4999999999999996 mg/mL, the
    float just below 2.5; 1.0 mg/mL comes back as 1.0. *)
Lemma unit_converter_binary64_round_trip :
  (exists y x',
     B64.unit_converter (B64.decimal 28444 2) mgml_to_mM (B64.decimal 25 1)
       = Return y
     /\ B64.unit_converter (B64.decimal 28444 2) mM_to_mgml y = Return x'
     /\ B64.ltb x' (B64.decimal 25 1) = true
     /\ SFsucc B64.prec B64.emax x' = B64.decimal 25 1)
  /\ (exists y,
        B64.unit_converter (B64.decimal 28444 2) mgml_to_mM (B64.decimal 1 0)
          = Return y
        /\ B64.unit_converter (B64.decimal 28444 2) mM_to_mgml y
           = Return (B64.decimal 1 0)).
Proof.
  split.
  - exists (S754_finite false 4947879635611306 (-49)),
           (S754_finite false 5629499534213119 (-51)).
    repeat split; vm_compute; reflexivity.
  - exists (S754_finite false 7916607416978090 (-51)).
    split; vm_compute; reflexivity.
Qed.

(** * The other branches: properties *)

(** ** Rounding *)

Lemma round_half_even_error (s : Q) :
  Qabs (inject_Z (round_half_even s) - s) <= 1 # 2.
Proof.
  unfold round_half_even.
  pose proof (Qfloor_le s) as Hlo. pose proof (Qlt_floor s) as Hhi.
  rewrite inject_Z_plus in Hhi. change (inject_Z 1) with 1 in Hhi.
  apply Qabs_Qle_condition.
  destruct (Qcompare_spec (s - inject_Z (Qfloor s)) (1 # 2)) as [E|E|E].
  - destruct (Z.even (Qfloor s)).
    + split; lra.
    + rewrite inject_Z_plus. change (inject_Z 1) with 1. split; lra.
  - split; lra.
  - rewrite inject_Z_plus. change (inject_Z 1) with 1. split; lra.
Qed.

(** A rounded value is within half a unit of the last decimal kept. *)
Lemma round_error (x : Q) (n : nat) :
  Qabs (round x n - x) <= 1 / (2 * inject_Z (10 ^ Z.of_nat n)).
Proof.
  unfold round. pose proof (pow10_pos n) as Hp.
  set (p := inject_Z (10 ^ Z.of_nat n)) in *.
  pose proof (round_half_even_error (x * p)) as H.
  apply Qabs_Qle_condition in H. apply Qabs_Qle_condition.
  set (z := inject_Z (round_half_even (x * p))) in *.
  assert (E1 : z / p - x == (z - x * p) / p) by (field; lra).
  assert (E2 : 1 / (2 * p) == (1 # 2) / p) by (field; lra).
  assert (E3 : - (1 / (2 * p)) == (- (1 # 2)) / p) by (field; lra).
  rewrite E1, E3, E2. destruct H as [H1 H2].
  split; apply Qmult_le_compat_r; try assumption;
    apply Qlt_le_weak, Qinv_lt_0_compat; exact Hp.
Qed.

Lemma round_half_even_nonpos (s : Q) : s <= 0 -> (round_half_even s <= 0)%Z.
Proof.
  intros H. unfold round_half_even.
  pose proof (Qfloor_le s) as Hlo.
  assert (Hf : (Qfloor s <= 0)%Z).
  { change 0%Z with (Qfloor 0). now apply Qfloor_resp_le. }
  destruct (Qcompare_spec (s - inject_Z (Qfloor s)) (1 # 2)) as [E|E|E].
  - destruct (Z.even (Qfloor s)) eqn:Ev; [exact Hf|].
    destruct (Z.eq_dec (Qfloor s) 0) as [E0|E0]; [now rewrite E0 in Ev|lia].
  - exact Hf.
  - destruct (Z.eq_dec (Qfloor s) 0) as [E0|E0]; [|lia].
    rewrite E0 in E. change (inject_Z 0) with 0 in E. lra.
Qed.

Lemma round_nonpos (x : Q) (n : nat) : x <= 0 -> round x n <= 0.
Proof.
  intros H. unfold round. pose proof (pow10_pos n) as Hp.
  apply Qle_shift_div_r; [exact Hp|]. rewrite Qmult_0_l.
  change 0 with (inject_Z 0). rewrite <- Zle_Qle.
  apply round_half_even_nonpos. nra.
Qed.

Lemma float_gt_comp (x x' c : Q) : x == x' -> float_gt x c = float_gt x' c.
Proof.
  intros E. destruct (float_gt x' c) eqn:H.
  - apply float_gt_spec. apply float_gt_spec in H. now rewrite E.
  - apply float_gt_false. apply float_gt_false in H. now rewrite E.
Qed.

Lemma float_lt_comp (x x' c : Q) : x == x' -> float_lt x c = float_lt x' c.
Proof.
  intros E. destruct (float_lt x' c) eqn:H.
  - apply float_lt_spec. apply float_lt_spec in H. now rewrite E.
  - apply float_lt_false. apply float_lt_false in H. now rewrite E.
Qed.

(** ** Single dilution: what the vehicle warning depends on *)



(** X2. The intermediate stock that single dilution suggests works: when
    the stock volume is below 1 µl, the suggested concentration lies between
    the target and the stock, and repeating the dilution from it takes
    exactly 1 µl, which is not flagged again. *)
Theorem intermediate_stock_resolves (g : settings) (C1 C2 : Q) (u : conc_unit)
    (r : single_result) (c_intermediate : Q) :
  0 < C1 -> 0 < C2 -> 1 <= well_volume g ->
  single_dilution g C1 u C2 u = Return (Result r) ->
  sd_c_intermediate r = Some c_intermediate ->
  C2 <= c_intermediate
  /\ c_intermediate < C1
  /\ exists r',
       single_dilution g c_intermediate u C2 u = Return (Result r')
       /\ sd_v1_ul r' == min_pip
       /\ sd_c_intermediate r' = None.
Proof.
  intros HC1 HC2 HV Hr Hc.
  rewrite single_dilution_Result in Hr by lra.
  injection Hr as <-. cbn [sd_c_intermediate] in Hc.
  destruct (float_lt (C2 * well_volume g / C1) min_pip) eqn:Hlt; [|discriminate].
  injection Hc as <-. apply float_lt_spec in Hlt. unfold min_pip in *.
  assert (Hc0 : C2 * well_volume g / 1 == C2 * well_volume g) by (field; lra).
  assert (Hc1 : 0 < C2 * well_volume g) by nra.
  assert (Hlt' : C2 * well_volume g < C1).
  { assert (E : C2 * well_volume g == C2 * well_volume g / C1 * C1)
      by (field; lra).
    rewrite E. nra. }
  split; [rewrite Hc0; nra|]. split; [rewrite Hc0; exact Hlt'|].
  eexists. split; [apply single_dilution_Result; lra|].
  cbn [sd_v1_ul sd_c_intermediate].
  assert (E1 : C2 * well_volume g / (C2 * well_volume g / 1) == 1)
    by (field; lra).
  split; [exact E1|].
  assert (E : float_lt (C2 * well_volume g / (C2 * well_volume g / 1)) 1 = false)
    by (apply float_lt_false; rewrite E1; lra).
  unfold min_pip. now rewrite E.
Qed.

(** 1 µM from a 10 mM stock in 300 µl is 0.03 µl of stock; the suggestion
    is a 300 µM intermediate. *)
Lemma intermediate_stock_resolves_example :
  exists r r',
    single_dilution cell_culture_300 10000 uM 1 uM = Return (Result r)
    /\ sd_c_intermediate r = Some (1 * 300 / 1)
    /\ single_dilution cell_culture_300 (1 * 300 / 1) uM 1 uM = Return (Result r')
    /\ sd_v1_ul r' == 1
    /\ sd_c_intermediate r' = None.
Proof.
  assert (H1 : ~ 10000 == 0) by lra.
  assert (H2 : ~ well_volume cell_culture_300 == 0) by (cbn; lra).
  pose proof (single_dilution_Result cell_culture_300 10000 1 uM H1 H2) as Hr.
  destruct (intermediate_stock_resolves cell_culture_300 10000 1 uM _
              (1 * 300 / 1) ltac:(lra) ltac:(lra) ltac:(cbn; lra) Hr eq_refl)
    as (_ & _ & r' & Hr' & Hv & Hnone).
  eexists _, r'. split; [exact Hr|]. split; [reflexivity|].
  split; [exact Hr'|]. split; [exact Hv|exact Hnone].
Defined.

(** ** Serial dilutions: the table *)





(** ** Experiment series and plate checker *)

Lemma Forall2_fmap_pair {A B C : Type} (f : A -> B) (f' : A -> C)
    (P : B -> C -> Prop) (l : list A) :
  (forall x, P (f x) (f' x)) -> Forall2 P (f <$> l) (f' <$> l).
Proof. intros H. induction l; cbn; constructor; auto. Qed.





(** ** Unit converter, the other way round *)

(** X7. Converting a concentration from mM to mg/mL and the result back
    to mM with the same positive molecular weight gives the value started
    from (in exact arithmetic). *)
Theorem unit_converter_round_trip_mM (mw y : Q) :
  0 < mw ->
  exists x y',
    unit_converter mw mM_to_mgml y = Return x
    /\ unit_converter mw mgml_to_mM x = Return y'
    /\ y' == y.
Proof.
  intros Hmw. eexists _, _. cbn [unit_converter].
  split; [reflexivity|]. split; [apply truediv_Return; lra|].
  field. lra.
Qed.

Lemma unit_converter_round_trip_mM_example :
  exists x y',
    unit_converter 284.44 mM_to_mgml 2 = Return x
    /\ unit_converter 284.44 mgml_to_mM x = Return y'
    /\ y' == 2.
Proof. apply (unit_converter_round_trip_mM 284.44 2). lra. Defined.

(** ** Molarity from mass and volume *)

(** X8. With a positive molecular weight, molarity-from-mass shows
    mass_mg / (MW * vol_mL) mol/L when the volume is positive, and the
    error "Volume must be > 0" and no molarity when it is not. *)
Theorem molarity_from_mass_value (mass_mg mw vol_ml : Q) :
  0 < mw ->
  (0 < vol_ml ->
   exists molarity,
     molarity_from_mass mass_mg mw vol_ml = Return (Result molarity)
     /\ molarity == mass_mg / (mw * vol_ml))
  /\ (vol_ml <= 0 ->
      molarity_from_mass mass_mg mw vol_ml = Return (Error "Volume must be > 0")).
Proof.
  intros Hmw. unfold molarity_from_mass. split; intros Hv.
  - assert (Hv' : 0 < vol_ml / 1000) by (apply Qlt_shift_div_l; lra).
    assert (E : float_gt (vol_ml / 1000) 0 = true) by now apply float_gt_spec.
    rewrite E. rewrite truediv_Return by lra. cbn [mbind py_bind].
    rewrite truediv_Return by lra. cbn [mbind py_bind].
    eexists. split; [reflexivity|]. field. split; lra.
  - assert (E : float_gt (vol_ml / 1000) 0 = false).
    { apply float_gt_false. apply Qle_shift_div_r; lra. }
    now rewrite E.
Qed.

(** 12 mg of retinal in 10 mL. *)
Lemma molarity_from_mass_value_example :
  (exists molarity,
     molarity_from_mass 12 284.44 10 = Return (Result molarity)
     /\ molarity == 12 / 2844.4)
  /\ molarity_from_mass 12 284.44 0 = Return (Error "Volume must be > 0").
Proof.
  destruct (molarity_from_mass_value 12 284.44 10) as [Hok _]; [lra|].
  destruct (molarity_from_mass_value 12 284.44 0) as [_ Herr]; [lra|].
  split; [|apply Herr; lra].
  destruct Hok as (m & Hm & Hval); [lra|].
  exists m. split; [exact Hm|]. rewrite Hval. reflexivity.
Defined.

(** X9. Molarity-from-mass undoes mass-needed: weighing the mass that
    the from-solid branch asks for, and dissolving it in the same final
    volume, gives back the target concentration (in mol/L), for a positive
    molecular weight and volume. *)
Theorem molarity_inverts_mass_needed (mass_mg mw : Q) (u : conc_unit)
    (target_conc final_vol_ml : Q) :
  0 < mw -> 0 < final_vol_ml ->
  exists r molarity,
    from_solid mass_mg mw u target_conc final_vol_ml = Result r
    /\ molarity_from_mass (fs_m_needed_mg r) mw final_vol_ml
       = Return (Result molarity)
    /\ molarity == target_conc * mol_per_L u.
Proof.
  intros Hmw Hv. eexists _, _. split; [reflexivity|].
  cbn [fs_m_needed_mg]. unfold molarity_from_mass.
  assert (Hv' : 0 < final_vol_ml / 1000) by (apply Qlt_shift_div_l; lra).
  assert (E : float_gt (final_vol_ml / 1000) 0 = true) by now apply float_gt_spec.
  rewrite E. rewrite truediv_Return by lra. cbn [mbind py_bind].
  rewrite truediv_Return by lra. cbn [mbind py_bind].
  split; [reflexivity|].
  destruct u; cbn [mol_per_L]; field; split; lra.
Qed.

(** 100 µM of retinal in 20 mL: 0.56888 mg, that is 0.0001 mol/L. *)
Lemma molarity_inverts_mass_needed_example :
  exists r molarity,
    from_solid 50 284.44 uM 100 20 = Result r
    /\ molarity_from_mass (fs_m_needed_mg r) 284.44 20 = Return (Result molarity)
    /\ molarity == 0.0001.
Proof.
  destruct (molarity_inverts_mass_needed 50 284.44 uM 100 20)
    as (r & m & Hr & Hm & Hval); try lra.
  exists r, m. split; [exact Hr|]. split; [exact Hm|].
  rewrite Hval. reflexivity.
Defined.

(** ** OD dilution, cell seeding, X-fold stock: volumes that are not clamped *)

(** X10. OD / culture dilution with positive ODs and final volume:
    culture plus medium make up the final volume, and the medium is not
    clamped: it is negative exactly when the target OD is above the
    starting OD. *)
Theorem od_dilution_volumes (od_start od_target final_vol_ml : Q) :
  0 < od_start -> 0 < final_vol_ml ->
  exists r,
    od_dilution od_start od_target final_vol_ml = Return r
    /\ od_v1_ml r == od_target * final_vol_ml / od_start
    /\ od_v1_ml r + od_diluent_ml r == final_vol_ml
    /\ (od_diluent_ml r < 0 <-> od_start < od_target).
Proof.
  intros Hs Hv. unfold od_dilution.
  rewrite truediv_Return by lra. cbn [mbind py_bind].
  eexists. split; [reflexivity|].
  cbn [od_v1_ml od_diluent_ml].
  split; [reflexivity|]. split; [ring|].
  assert (E : final_vol_ml - od_target * final_vol_ml / od_start
              == final_vol_ml * (od_start - od_target) / od_start)
    by (field; lra).
  rewrite E. split; intros H.
  - apply Qnot_le_lt. intros Hle.
    assert (0 <= final_vol_ml * (od_start - od_target) / od_start); [|lra].
    apply Qle_shift_div_l; [exact Hs|]. nra.
  - apply Qlt_shift_div_r; [exact Hs|]. nra.
Qed.

(** A culture at OD 0.1 asked to reach OD 1.2 in 10 mL: 120 mL of
    culture and -110 mL of medium. *)
Lemma od_dilution_volumes_example :
  exists r,
    od_dilution 0.1 1.2 10 = Return r
    /\ od_v1_ml r == 120
    /\ od_diluent_ml r == -110.
Proof.
  destruct (od_dilution_volumes 0.1 1.2 10) as (r & Hr & Hv1 & Hsum & _);
    try lra.
  exists r. split; [exact Hr|].
  assert (E : od_v1_ml r == 120) by (rewrite Hv1; reflexivity).
  split; [exact E|]. lra.
Defined.

(** X11. Cell seeding with positive cell numbers: the suspension volume
    is target / stock density, suspension plus medium make up the final
    volume, and the medium is negative exactly when the cells asked for
    exceed those in the final volume of suspension. *)
Theorem cell_seeding_volumes (stock_density target_density : Z)
    (final_volume_ml : Q) :
  (0 < stock_density)%Z ->
  exists r,
    cell_seeding stock_density target_density final_volume_ml = Return r
    /\ cs_vol_cells_ml r * inject_Z stock_density == inject_Z target_density
    /\ cs_vol_cells_ml r + cs_vol_medium_ml r == final_volume_ml
    /\ (cs_vol_medium_ml r < 0
        <-> inject_Z stock_density * final_volume_ml < inject_Z target_density).
Proof.
  intros Hs. unfold cell_seeding.
  assert (Hs' : 0 < inject_Z stock_density).
  { change 0 with (inject_Z 0). now rewrite <- Zlt_Qlt. }
  rewrite truediv_Return by lra. cbn [mbind py_bind].
  eexists. split; [reflexivity|].
  cbn [cs_vol_cells_ml cs_vol_medium_ml].
  set (s := inject_Z stock_density) in *. set (t := inject_Z target_density).
  split; [field; lra|]. split; [ring|].
  assert (E : final_volume_ml - t / s == (s * final_volume_ml - t) / s)
    by (field; lra).
  rewrite E. split; intros H.
  - apply Qnot_le_lt. intros Hle.
    assert (0 <= (s * final_volume_ml - t) / s); [|lra].
    apply Qle_shift_div_l; [exact Hs'|]. lra.
  - apply Qlt_shift_div_r; [exact Hs'|]. lra.
Qed.

(** The defaults: 200 000 cells from 1 500 000 cells/mL into 2 mL. *)
Lemma cell_seeding_volumes_example :
  exists r,
    cell_seeding 1500000 200000 2 = Return r
    /\ cs_vol_cells_ml r == 2 # 15
    /\ cs_vol_medium_ml r == 28 # 15.
Proof.
  destruct (cell_seeding_volumes 1500000 200000 2) as (r & Hr & Hc & Hsum & _);
    [lia|].
  exists r. split; [exact Hr|].
  change (inject_Z 1500000) with 1500000 in Hc.
  change (inject_Z 200000) with 200000 in Hc.
  split; lra.
Defined.

(** X12. Make-X-stock within the bounds of its fields (multiple >= 1,
    final volume >= 1 mL): the volume to take times the multiple is the
    final volume, it is positive and at most the final volume, and the
    solvent is not negative; the current concentration plays no part. *)
Theorem make_x_stock_volumes (current_conc desired_mult final_vol_ml : Q) :
  1 <= desired_mult -> 1 <= final_vol_ml ->
  exists r,
    make_x_stock current_conc desired_mult final_vol_ml = Return r
    /\ xs_V1 r * desired_mult == final_vol_ml
    /\ 0 < xs_V1 r <= final_vol_ml
    /\ 0 <= xs_solvent_ml r
    /\ xs_V1 r + xs_solvent_ml r == final_vol_ml.
Proof.
  intros Hm Hv. unfold make_x_stock.
  rewrite truediv_Return by lra. cbn [mbind py_bind].
  eexists. split; [reflexivity|]. cbn [xs_V1 xs_solvent_ml].
  assert (H1 : 0 < final_vol_ml / desired_mult)
    by (apply Qlt_shift_div_l; lra).
  assert (H2 : final_vol_ml / desired_mult <= final_vol_ml)
    by (apply Qle_shift_div_r; [lra|nra]).
  split; [field; lra|]. split; [split; assumption|].
  split; [lra|ring].
Qed.

Lemma make_x_stock_volumes_example :
  exists r,
    make_x_stock 1 10 50 = Return r
    /\ xs_V1 r == 5
    /\ xs_solvent_ml r == 45.
Proof.
  destruct (make_x_stock_volumes 1 10 50) as (r & Hr & Hv & _ & _ & Hsum);
    try lra.
  exists r. split; [exact Hr|]. split; lra.
Defined.

(** ** Master mix *)



(** ** Acid / base dilution *)

(** X14. For each reagent of the table the branch shows
    target_m * final_vol_L * MW / purity / density * 1000 as the millilitres
    of concentrated reagent.  The densities of the table are in g/mL, so
    the quotient is in mL before the factor 1000: against C1 V1 = C2 V2,
    with C1 the molarity of the bottle (density * 1000 * purity / MW), the
    number shown is 1000 times V1 in mL,
    shown * C1 = 1 000 000 * target_m * final_vol_L.  It exceeds the final
    volume as soon as the target is above a thousandth of the bottle's
    molarity.  A name that is not in the table raises KeyError. *)
Theorem acid_base_dilution_shown (reagent_name : string) (target_m final_vol_L : Q) :
  (forall r, In (reagent_name, r) reagents ->
     exists vol_conc_ml,
       acid_base_dilution reagent_name target_m final_vol_L = Return vol_conc_ml
       /\ vol_conc_ml
          == target_m * final_vol_L * rg_mw r / rg_purity r / rg_density r * 1000
       /\ vol_conc_ml * bottle_molarity r == 1000000 * (target_m * final_vol_L)
       /\ (0 < final_vol_L ->
           (final_vol_L * 1000 < vol_conc_ml
            <-> bottle_molarity r < 1000 * target_m)))
  /\ (~ In reagent_name (keys reagents) ->
      acid_base_dilution reagent_name target_m final_vol_L
        = Raise (Exception "KeyError")).
Proof.
  split.
  - intros r H.
    assert (Hr : 0 < rg_density r /\ 0 < rg_purity r /\ 0 < rg_mw r
                 /\ getitem reagents reagent_name = Return r).
    { cbn in H. destruct H as [H|[H|[H|[]]]]; injection H as <- <-;
        cbn; repeat split; reflexivity. }
    destruct Hr as (Hd & Hp & Hm & Hget).
    unfold acid_base_dilution. rewrite Hget. cbn [mbind py_bind].
    rewrite truediv_Return by lra. cbn [mbind py_bind].
    rewrite truediv_Return by lra. cbn [mbind py_bind].
    eexists. split; [reflexivity|]. unfold bottle_molarity.
    set (d := rg_density r) in *. set (p := rg_purity r) in *.
    set (w := rg_mw r) in *.
    split; [reflexivity|]. split; [field; repeat split; lra|].
    intros Hv.
    assert (E : target_m * final_vol_L * w / p / d * 1000 - final_vol_L * 1000
                == (1000 * target_m - d * 1000 * p / w)
                   * (final_vol_L * w / (p * d)))
      by (field; repeat split; lra).
    assert (Hk : 0 < final_vol_L * w / (p * d)).
    { apply Qlt_shift_div_l; nra. }
    split; intros H'; nra.
  - intros H. unfold acid_base_dilution.
    assert (E : getitem reagents reagent_name = Raise (Exception "KeyError")).
    { cbn in H. unfold reagents. cbn [getitem].
      destruct (String.eqb_spec "HCl 37%" reagent_name) as [E|_]; [tauto|].
      destruct (String.eqb_spec "H2SO4 98%" reagent_name) as [E|_]; [tauto|].
      destruct (String.eqb_spec "NH3 25%" reagent_name) as [E|_]; [tauto|].
      reflexivity. }
    now rewrite E.
Qed.

(** 1 L of 1 M HCl from the 37 % bottle (12.08 M, so 82.8 mL): the number
    shown is about 82 807, more than the litre to prepare. *)
Lemma acid_base_dilution_shown_example :
  (exists vol_conc_ml,
     acid_base_dilution "HCl 37%" 1 1 = Return vol_conc_ml
     /\ 82807 < vol_conc_ml < 82808
     /\ 1 * 1000 < vol_conc_ml)
  /\ acid_base_dilution "HNO3 65%" 1 1 = Raise (Exception "KeyError").
Proof.
  pose (hcl := {| rg_density := 1.19; rg_purity := 0.37; rg_mw := 36.46 |}).
  assert (Hin : In ("HCl 37%"%string, hcl) reagents) by (left; reflexivity).
  split.
  - destruct (acid_base_dilution_shown "HCl 37%" 1 1) as [Hok _].
    destruct (Hok hcl Hin) as (v & Hv & Hval & _ & Hover).
    exists v. split; [exact Hv|].
    split; [rewrite Hval; split; reflexivity|].
    apply Hover; reflexivity.
  - destruct (acid_base_dilution_shown "HNO3 65%" 1 1) as [_ Hkey].
    apply Hkey. cbn. intros [H|[H|[H|[]]]]; discriminate H.
Defined.

(** ** Percent solutions *)

(** X15. A percent solution asks for percent / 100 of the final volume,
    the same number for w/v and v/v; the percentage is not bounded above,
    and the amount exceeds the final volume exactly when it is over 100. *)
Theorem percent_solution_amount (t : percent_type) (final_vol_ml percent : Q) :
  0 < final_vol_ml ->
  quantity (percent_solution t final_vol_ml percent)
    == percent * final_vol_ml / 100
  /\ (final_vol_ml < quantity (percent_solution t final_vol_ml percent)
      <-> 100 < percent).
Proof.
  intros Hv.
  assert (E : quantity (percent_solution t final_vol_ml percent)
              == percent * final_vol_ml / 100)
    by (destruct t; cbn; field).
  split; [exact E|]. rewrite E. split; intros H.
  - apply Qnot_le_lt. intros Hle.
    assert (percent * final_vol_ml / 100 <= final_vol_ml); [|lra].
    apply Qle_shift_div_r; [lra|nra].
  - apply Qlt_shift_div_l; [lra|nra].
Qed.

Lemma percent_solution_amount_example :
  quantity (percent_solution w_v 100 2) == 2
  /\ (100 < quantity (percent_solution v_v 100 150)).
Proof.
  destruct (percent_solution_amount w_v 100 2) as [E _]; [lra|].
  destruct (percent_solution_amount v_v 100 150) as [_ H]; [lra|].
  split; [rewrite E; reflexivity|]. apply H. lra.
Defined.

(** ** Strings *)

Lemma prefix_append (k s : string) : String.prefix k (String.append k s) = true.
Proof.
  induction k as [|a k IH]; simpl.
  - now destruct s.
  - destruct (Ascii.ascii_dec a a) as [_|N]; [exact IH|congruence].
Qed.

Lemma contains_prefix (k h : string) :
  String.prefix k h = true -> contains k h = true.
Proof. intros H. destruct h; cbn [contains]; now rewrite H. Qed.

Lemma contains_append (k p s : string) :
  contains k (String.append p (String.append k s)) = true.
Proof.
  induction p as [|a p IH].
  - change (String.append EmptyString (String.append k s))
      with (String.append k s).
    apply contains_prefix, prefix_append.
  - change (contains k (String.append (String a p) (String.append k s)))
      with (String.prefix k (String a (String.append p (String.append k s)))
            || contains k (String.append p (String.append k s))).
    rewrite IH. apply orb_true_r.
Qed.

Lemma lower_append (a b : string) :
  lower (String.append a b) = String.append (lower a) (lower b).
Proof. induction a as [|c a IH]; simpl; [reflexivity|now rewrite IH]. Qed.

(** A word occurs, in any letter case, in every name built around it. *)
Lemma contains_any_case (key w pre suf : string) :
  lower w = key ->
  contains key (lower (String.append pre (String.append w suf))) = true.
Proof.
  intros <-. rewrite !lower_append. apply contains_append.
Qed.

(** ** Storage / stability helper *)

Lemma first_rule_first_match (items : list (string * string)) (name : string)
    (i : nat) (key val : string) :
  items !! i = Some (key, val) ->
  contains key (lower name) = true ->
  (forall j k v, (j < i)%nat -> items !! j = Some (k, v) ->
                 contains k (lower name) = false) ->
  first_rule items name = Some val.
Proof.
  revert i. induction items as [|[k0 v0] items IH]; intros i Hi Hc Hbefore.
  - discriminate Hi.
  - destruct i as [|i]; cbn [first_rule].
    + injection Hi as -> ->. now rewrite Hc.
    + rewrite (Hbefore 0%nat k0 v0) by (lia || reflexivity).
      apply (IH i); [exact Hi|exact Hc|].
      intros j k v Hj Hjk. apply (Hbefore (S j) k v); [lia|exact Hjk].
Qed.

Lemma first_rule_no_match (items : list (string * string)) (name : string) :
  (forall k v, In (k, v) items -> contains k (lower name) = false) ->
  first_rule items name = None.
Proof.
  induction items as [|[k0 v0] items IH]; intros H; cbn [first_rule].
  - reflexivity.
  - rewrite (H k0 v0) by now left.
    apply IH. intros k v Hin. apply (H k v). now right.
Qed.

Lemma storage_dict_truthy (i : nat) (key val : string) :
  storage_dict !! i = Some (key, val) -> truthy val = true.
Proof.
  do 6 (destruct i as [|i]; [intros [= <- <-]; reflexivity|]).
  discriminate.
Qed.

(** X16. The storage helper answers with the rule of the first key, in
    the order of the dictionary, that occurs in the lower-cased name: a key
    that occurs while none of the keys before it does decides the rule; and
    when no key occurs the general advice is shown. *)
Theorem storage_helper_first_match (name : string) :
  (forall i key val,
     storage_dict !! i = Some (key, val) ->
     contains key (lower name) = true ->
     (forall j k v, (j < i)%nat -> storage_dict !! j = Some (k, v) ->
                    contains k (lower name) = false) ->
     storage_helper name = success val)
  /\ ((forall k v, In (k, v) storage_dict -> contains k (lower name) = false) ->
      storage_helper name = info no_rule_found).
Proof.
  split.
  - intros i key val Hi Hc Hbefore. unfold storage_helper.
    rewrite (first_rule_first_match _ _ i key val Hi Hc Hbefore).
    now rewrite (storage_dict_truthy i key val Hi).
  - intros H. unfold storage_helper. now rewrite first_rule_no_match.
Qed.

(** "Tris-buffered PFA" mentions the keys "tris" and "pfa": the rule is
    that of "tris", which comes first; "water" mentions none. *)
Lemma storage_helper_first_match_example :
  storage_helper "Tris-buffered PFA" = success "Room temp, 1 month."
  /\ storage_helper "water" = info no_rule_found.
Proof.
  split.
  - destruct (storage_helper_first_match "Tris-buffered PFA") as [Hfirst _].
    apply (Hfirst 4%nat "tris"%string); [reflexivity|reflexivity|].
    intros j k v Hj Hjk.
    do 4 (destruct j as [|j]; [injection Hjk as <- <-; reflexivity|]).
    lia.
  - destruct (storage_helper_first_match "water") as [_ Hnone].
    apply Hnone. intros k v Hin. cbn in Hin.
    repeat (destruct Hin as [Hin|Hin]; [injection Hin as <- <-; reflexivity|]).
    destruct Hin.
Defined.

(** X17. Letter case and position do not matter, and "retinal" wins over
    every other key: a name with the word retinal anywhere in it, in any
    mix of upper and lower case, gets the retinal rule, whatever else the
    name mentions. *)
Theorem storage_helper_retinal_any_case (pre w suf : string) :
  lower w = "retinal"%string ->
  storage_helper (String.append pre (String.append w suf))
  = success "Protect from light, dissolve in dry EtOH or DMSO, aliquot, store at -20°C or below.".
Proof.
  intros Hw. unfold storage_helper.
  rewrite (first_rule_first_match storage_dict _ 0 "retinal"
             "Protect from light, dissolve in dry EtOH or DMSO, aliquot, store at -20°C or below.").
  - reflexivity.
  - reflexivity.
  - now apply contains_any_case.
  - intros j k v Hj. lia.
Qed.

Lemma storage_helper_retinal_any_case_example :
  storage_helper "5 mM all-trans RETINAL in PBS"
  = success "Protect from light, dissolve in dry EtOH or DMSO, aliquot, store at -20°C or below.".
Proof.
  apply (storage_helper_retinal_any_case "5 mM all-trans " "RETINAL" " in PBS").
  reflexivity.
Defined.

(** ** The light-sensitivity warning *)

(** X18. The light-sensitivity warning of the from-solid branch does not
    depend on letter case or position either: a compound name with
    retinal, retinoic, rhodamine or fitc anywhere in it, in any mix of upper
    and lower case, is warned about. *)
Theorem light_sensitive_any_case (word pre w suf : string) :
  In word light_sensitive_words ->
  lower w = word ->
  looks_light_sensitive (String.append pre (String.append w suf)) = true.
Proof.
  intros Hin Hw. unfold looks_light_sensitive.
  apply existsb_exists. exists word. split; [exact Hin|].
  now apply contains_any_case.
Qed.

Lemma light_sensitive_any_case_example :
  looks_light_sensitive "FITC-dextran 70 kDa" = true.
Proof.
  apply (light_sensitive_any_case "fitc" "" "FITC" "-dextran 70 kDa").
  - cbn. tauto.
  - reflexivity.
Defined.

(** X19. The two modes agree on retinoids: whenever the storage helper
    answers with the rule for retinal or the rule for retinoic, the
    from-solid branch warns that the same name looks light-sensitive. *)
Theorem storage_rule_implies_light_warning (name : string) :
  storage_helper name
    = success "Protect from light, dissolve in dry EtOH or DMSO, aliquot, store at -20°C or below."
  \/ storage_helper name
     = success "Light-sensitive, store at -20°C, use fresh aliquots." ->
  looks_light_sensitive name = true.
Proof.
  unfold storage_helper, storage_dict, looks_light_sensitive,
    light_sensitive_words.
  cbn [first_rule existsb].
  destruct (contains "retinal" (lower name)) eqn:E1; [reflexivity|].
  destruct (contains "retinoic" (lower name)) eqn:E2; [reflexivity|].
  destruct (contains "ampicillin" (lower name));
    [cbn [truthy]; intros [H|H]; discriminate H|].
  destruct (contains "pbs" (lower name));
    [cbn [truthy]; intros [H|H]; discriminate H|].
  destruct (contains "tris" (lower name));
    [cbn [truthy]; intros [H|H]; discriminate H|].
  destruct (contains "pfa" (lower name));
    [cbn [truthy]; intros [H|H]; discriminate H|].
  intros [H|H]; discriminate H.
Qed.

Lemma storage_rule_implies_light_warning_example :
  looks_light_sensitive "Retinoic acid" = true.
Proof.
  apply storage_rule_implies_light_warning. right. reflexivity.
Defined.

(** ** Logout and the gates *)

Lemma logout_Return (sign_out : py unit) (s : gmap string value) :
  logout sign_out s
  = Return (delete "plan"%string (delete "user"%string s)).
Proof.
  unfold logout.
  assert (E : try_except sign_out (fun _ => mret tt) = Return tt)
    by (destruct sign_out as [[]|e]; reflexivity).
  rewrite E. cbn [mbind py_bind foldl]. do 2 f_equal.
  assert (D : forall (key : string) (m : gmap string value),
             (if bool_decide (is_Some (m !! key)) then delete key m else m)
             = delete key m).
  { intros key m. case_bool_decide as H; [reflexivity|].
    symmetry. apply delete_id. now apply eq_None_not_Some. }
  now rewrite !D.
Qed.

(** X20. Logout always goes through, whether or not the sign-out call
    raises, and leaves a session state without "user" and without "plan"
    in which every other key, "auth_session" and the favorites among them,
    holds what it held. *)
Theorem logout_clears_user_and_plan (sign_out : py unit) (s : gmap string value) :
  exists s',
    logout sign_out s = Return s'
    /\ s' !! "user"%string = None
    /\ s' !! "plan"%string = None
    /\ forall key : string,
         key <> "user"%string -> key <> "plan"%string -> s' !! key = s !! key.
Proof.
  eexists. split; [apply logout_Return|].
  split; [|split].
  - rewrite lookup_delete_ne by discriminate. apply lookup_delete_eq.
  - apply lookup_delete_eq.
  - intros key Hu Hp. now rewrite !lookup_delete_ne by congruence.
Qed.

(** A sign-out that fails on the network: the user is logged out of the
    page all the same, and the auth session stays in the session state. *)
Lemma logout_clears_user_and_plan_example :
  exists s',
    logout (Raise (Exception "network unreachable"))
      (<["auth_session"%string := VAuth "token"]> logged_in_session)
    = Return s'
    /\ s' !! "user"%string = None
    /\ s' !! "auth_session"%string = Some (VAuth "token").
Proof.
  destruct (logout_clears_user_and_plan (Raise (Exception "network unreachable"))
              (<["auth_session"%string := VAuth "token"]> logged_in_session))
    as (s' & Hs & Hu & _ & Hother).
  exists s'. split; [exact Hs|]. split; [exact Hu|].
  rewrite Hother by discriminate. reflexivity.
Defined.

Lemma gate_login_page (execute_plan : string -> py response) (s : gmap string value) :
  s !! "user"%string = None \/ s !! "user"%string = Some VNone ->
  exists s', gate execute_plan s = Return (s', login_page)
             /\ s' !! "user"%string = Some VNone.
Proof.
  intros H. unfold gate.
  set (s1 := setdefault "auth_session" VNone s).
  assert (H1 : s1 !! "user"%string = s !! "user"%string).
  { unfold s1, setdefault. destruct (s !! "auth_session"%string); [reflexivity|].
    now rewrite lookup_insert_ne by discriminate. }
  assert (H2 : setdefault "user" VNone s1 !! "user"%string = Some VNone).
  { unfold setdefault. destruct H as [H|H]; rewrite H1, H.
    - apply lookup_insert_eq.
    - now rewrite H1. }
  rewrite H2. eexists. split; [reflexivity|exact H2].
Qed.


Lemma json_eqb_pro (plan : json) :
  json_eqb plan (JStr "pro") = true <-> plan = JStr "pro".
Proof.
  destruct plan as [|b|q|s]; cbn; try (split; [discriminate|discriminate]).
  rewrite String.eqb_eq. split; [now intros ->|now intros [= ->]].
Qed.

Lemma gate_logged_in (execute_plan : string -> py response)
    (s : gmap string value) (id email : string) :
  s !! "user"%string = Some (VUser id email) ->
  gate execute_plan s
  = (plan ← get_subscription_plan execute_plan id;
     mret (setdefault "auth_session" VNone s,
           if json_eqb plan (JStr "pro") then calculator else upgrade_notice)).
Proof.
  intros Hu. unfold gate.
  set (s1 := setdefault "auth_session" VNone s).
  assert (H1 : s1 !! "user"%string = Some (VUser id email)).
  { unfold s1, setdefault. destruct (s !! "auth_session"%string); [exact Hu|].
    now rewrite lookup_insert_ne by discriminate. }
  assert (H2 : setdefault "user" VNone s1 = s1)
    by (unfold setdefault; now rewrite H1).
  now rewrite H2, H1.
Qed.

(** X22. A logged-in user reaches the calculator exactly when the
    subscription query answers with a first row whose "plan" is the string
    "pro"; every other outcome of the query (an exception, no rows, no
    "plan" column, any other value) ends on the upgrade notice, and no
    outcome makes the gate raise. *)
Theorem gate_calculator_iff_pro (execute_plan : string -> py response)
    (s : gmap string value) (id email : string) :
  s !! "user"%string = Some (VUser id email) ->
  exists s' p,
    gate execute_plan s = Return (s', p)
    /\ (p = calculator \/ p = upgrade_notice)
    /\ (p = calculator
        <-> exists r rs,
              execute_plan id = Return {| data := Some (r :: rs) |}
              /\ r !! "plan"%string = Some (JStr "pro")).
Proof.
  intros Hu. rewrite (gate_logged_in _ _ id email Hu).
  unfold get_subscription_plan.
  destruct (execute_plan id) as [[[[|r rs]|]]|e]; cbn.
  1,3,4: eexists _, _; split; [reflexivity|]; split; [now right|];
         split; [discriminate|intros (r & rs & H & _); discriminate H].
  destruct (r !! "plan"%string) as [plan|] eqn:Hp; cbn.
  - eexists _, _. split; [reflexivity|].
    destruct (json_eqb plan (JStr "pro")) eqn:E.
    + split; [now left|]. split; [|reflexivity].
      intros _. exists r, rs. split; [reflexivity|].
      apply json_eqb_pro in E. now rewrite Hp, E.
    + split; [now right|]. split; [discriminate|].
      intros (r' & rs' & [= <- <-] & Hp').
      rewrite Hp in Hp'. injection Hp' as ->. discriminate E.
  - eexists _, _. split; [reflexivity|]. split; [now right|].
    split; [discriminate|].
    intros (r' & rs' & [= <- <-] & Hp'). rewrite Hp in Hp'. discriminate Hp'.
Qed.


Lemma gate_calculator_iff_pro_example :
  (exists s', gate pro_backend logged_in_session = Return (s', calculator))
  /\ (exists s', gate failing_backend logged_in_session = Return (s', upgrade_notice)).
Proof.
  split.
  - destruct (gate_calculator_iff_pro pro_backend logged_in_session
                "e29394b6" "ada@example.org" eq_refl)
      as (s' & p & Hg & _ & Hiff).
    exists s'. rewrite Hg. do 2 f_equal. apply Hiff.
    exists {[ "plan"%string := JStr "pro" ]}, []. split; reflexivity.
  - destruct (gate_calculator_iff_pro failing_backend logged_in_session
                "e29394b6" "ada@example.org" eq_refl)
      as (s' & p & Hg & [Hp|Hp] & Hiff).
    + apply Hiff in Hp as (r & rs & H & _). discriminate H.
    + exists s'. now rewrite Hg, Hp.
Defined.



(** ** Favorites *)

Lemma json_eqb_refl (a : json) : json_eqb a a = true.
Proof.
  destruct a as [|b|q|s]; cbn.
  - reflexivity.
  - destruct b; reflexivity.
  - apply Qeq_bool_refl.
  - apply String.eqb_refl.
Qed.

Lemma json_in_app (x : json) (l l' : list json) :
  json_in x (l ++ l') = json_in x l || json_in x l'.
Proof. apply existsb_app. Qed.

Lemma json_in_add_favorite (name : json) (fav : list json) :
  json_in name (add_favorite name fav) = true.
Proof.
  unfold add_favorite. destruct (json_in name fav) eqn:E; [exact E|].
  rewrite json_in_app, E. unfold json_in. cbn [existsb orb].
  now rewrite json_eqb_refl.
Qed.

Lemma add_favorite_suffix (name : json) (fav : list json) :
  exists added, add_favorite name fav = fav ++ added.
Proof.
  unfold add_favorite. destruct (json_in name fav).
  - exists []. now rewrite app_nil_r.
  - now exists [name].
Qed.

Lemma add_favorite_present (name : json) (fav : list json) :
  json_in name fav = true -> add_favorite name fav = fav.
Proof. intros H. unfold add_favorite. now rewrite H. Qed.

(** One pass of the merge loop. *)
Lemma merge_favorites_cons (r : gmap string json) (db : list (gmap string json))
    (fav : list json) :
  merge_favorites (r :: db) fav
  = (name ← row_getitem r "name"; merge_favorites db (add_favorite name fav)).
Proof.
  unfold merge_favorites. cbn [for_in].
  destruct (row_getitem r "name"); reflexivity.
Qed.

Lemma merge_favorites_suffix (db : list (gmap string json)) (fav fav' : list json) :
  merge_favorites db fav = Return fav' -> exists added, fav' = fav ++ added.
Proof.
  revert fav. induction db as [|r db IH]; intros fav.
  - intros [= <-]. exists []. now rewrite app_nil_r.
  - rewrite merge_favorites_cons.
    destruct (row_getitem r "name") as [name|e]; cbn [mbind py_bind];
      [|discriminate].
    intros H. apply IH in H as (added & ->).
    destruct (add_favorite_suffix name fav) as (a & ->).
    exists (a ++ added). now rewrite app_assoc.
Qed.

Lemma merge_favorites_present (db : list (gmap string json)) (fav : list json) :
  Forall (fun r => exists name, r !! "name"%string = Some name
                                /\ json_in name fav = true) db ->
  merge_favorites db fav = Return fav.
Proof.
  induction 1 as [|r db (name & Hn & Hin) _ IH]; [reflexivity|].
  rewrite merge_favorites_cons. unfold row_getitem. rewrite Hn.
  cbn [mbind py_bind]. now rewrite add_favorite_present.
Qed.

Lemma merge_favorites_all_in (db : list (gmap string json)) (fav fav' : list json) :
  merge_favorites db fav = Return fav' ->
  Forall (fun r => exists name, r !! "name"%string = Some name
                                /\ json_in name fav' = true) db.
Proof.
  revert fav. induction db as [|r db IH]; intros fav; [constructor|].
  rewrite merge_favorites_cons. unfold row_getitem.
  destruct (r !! "name"%string) as [name|] eqn:Hn; cbn [mbind py_bind];
    [|discriminate].
  intros H. constructor; [|now apply (IH _ H)].
  exists name. split; [exact Hn|].
  apply merge_favorites_suffix in H as (added & ->).
  rewrite json_in_app, json_in_add_favorite. reflexivity.
Qed.

Lemma merge_favorites_Return (db : list (gmap string json)) (fav : list json) :
  Forall (fun r => is_Some (r !! "name"%string)) db ->
  exists fav', merge_favorites db fav = Return fav'.
Proof.
  intros Hall. revert fav.
  induction Hall as [|r db [name Hn] _ IH]; intros fav.
  - now exists fav.
  - rewrite merge_favorites_cons. unfold row_getitem. rewrite Hn.
    cbn [mbind py_bind]. apply IH.
Qed.

(** X24. Merging the stored reagents into the favorites keeps the list
    it starts from as a prefix, ends with the name of every stored row in
    the list, and is idempotent: merging the same rows again changes
    nothing.  It goes through when every row has a "name"; one row without
    it raises KeyError. *)
Theorem merge_favorites_adds_once (reagents_db : list (gmap string json))
    (fav : list json) :
  (Forall (fun r => is_Some (r !! "name"%string)) reagents_db ->
   exists fav',
     merge_favorites reagents_db fav = Return fav'
     /\ (exists added, fav' = fav ++ added)
     /\ Forall (fun r => exists name, r !! "name"%string = Some name
                                      /\ json_in name fav' = true) reagents_db
     /\ merge_favorites reagents_db fav' = Return fav')
  /\ (Exists (fun r => r !! "name"%string = None) reagents_db ->
      merge_favorites reagents_db fav = Raise (Exception "KeyError")).
Proof.
  split.
  - intros Hall.
    destruct (merge_favorites_Return reagents_db fav Hall) as (fav' & Hm). exists fav'. split; [exact Hm|].
    split; [now apply (merge_favorites_suffix reagents_db)|].
    pose proof (merge_favorites_all_in _ _ _ Hm) as Hin.
    split; [exact Hin|]. now apply merge_favorites_present.
  - intros Hex. revert fav.
    induction Hex as [r db Hn|r db _ IH]; intros fav;
      rewrite merge_favorites_cons; unfold row_getitem.
    + now rewrite Hn.
    + destruct (r !! "name"%string); cbn [mbind py_bind]; [apply IH|reflexivity].
Qed.

(** The same reagent stored twice is listed once; a row without a name
    aborts the merge. *)
Lemma merge_favorites_adds_once_example :
  merge_favorites [ retinal_row; retinal_row ] [ JStr "gaba" ]
    = Return [ JStr "gaba"; JStr "retinal" ]
  /\ merge_favorites [ retinal_row; nameless_row ] []
     = Raise (Exception "KeyError").
Proof.
  destruct (merge_favorites_adds_once [ retinal_row; retinal_row ] [ JStr "gaba" ])
    as [Hok _].
  destruct (merge_favorites_adds_once [ retinal_row; nameless_row ] [])
    as [_ Hbad].
  split.
  - destruct Hok as (fav' & Hm & _).
    + repeat constructor; exists (JStr "retinal"); reflexivity.
    + rewrite Hm. vm_compute in Hm. injection Hm as <-. reflexivity.
  - apply Hbad. apply Exists_cons_tl, Exists_cons_hd. reflexivity.
Defined.

(** X25. The save button, as the handler is written: the warning "Give
    the compound a name first." is shown when the button has not been
    pressed, whatever the name; a press with an empty name shows nothing,
    saves nothing and inserts nothing; a press with a name puts the name in
    the favorites (once) and then inserts a row for the demo user, and if
    the insert raises the name stays in the favorites all the same. *)
Theorem save_favorite_cases (insert : reagent_record -> py unit)
    (compound_name : string) (mw : Q) (fav : list json) :
  save_favorite insert false compound_name mw fav
    = (fav, Return (Some (warning "Give the compound a name first.")))
  /\ (compound_name = EmptyString ->
      save_favorite insert true compound_name mw fav = (fav, Return None))
  /\ (compound_name <> EmptyString ->
      let row := {| rr_user_id := DEMO_USER_ID; rr_name := compound_name;
                    rr_mw := mw; rr_note := "from app" |} in
      exists fav',
        (save_favorite insert true compound_name mw fav).1 = fav'
        /\ json_in (JStr compound_name) fav' = true
        /\ (exists added, fav' = fav ++ added)
        /\ (json_in (JStr compound_name) fav = true -> fav' = fav)
        /\ (forall e, insert row = Raise e ->
              (save_favorite insert true compound_name mw fav).2 = Raise e)
        /\ (insert row = Return tt ->
              exists msg,
                (save_favorite insert true compound_name mw fav).2
                = Return (Some (success msg)))).
Proof.
  split; [reflexivity|]. split.
  - now intros ->.
  - intros Hne row. unfold save_favorite.
    assert (E : truthy compound_name = true)
      by (destruct compound_name; [congruence|reflexivity]).
    rewrite E. cbn [fst snd]. eexists. split; [reflexivity|].
    split; [apply json_in_add_favorite|].
    split; [apply add_favorite_suffix|].
    split; [apply add_favorite_present|].
    split.
    + intros e He. fold row. now rewrite He.
    + intros Hok. fold row. rewrite Hok. eexists. reflexivity.
Qed.

Lemma save_favorite_cases_example :
  save_favorite insert_refused true EmptyString 284.44 [] = ([], Return None)
  /\ (save_favorite insert_refused true "retinal" 284.44 []).1 = [ JStr "retinal" ]
  /\ (save_favorite insert_refused true "retinal" 284.44 []).2
     = Raise (Exception "new row violates row-level security policy").
Proof.
  destruct (save_favorite_cases insert_refused EmptyString 284.44 [])
    as (_ & Hempty & _).
  destruct (save_favorite_cases insert_refused "retinal" 284.44 [])
    as (_ & _ & Hname).
  split; [now apply Hempty|].
  destruct Hname as (fav' & Hfav & _ & _ & _ & Hraise & _); [discriminate|].
  split; [reflexivity|]. now apply Hraise.
Defined.

(** X26. A favorite saved by the button is not added a second time at
    the next start: merging a stored row of that name into the favorites
    left by the click returns them unchanged, whether or not the insert went
    through. *)
Theorem saved_favorite_not_duplicated (insert : reagent_record -> py unit)
    (compound_name : string) (mw : Q) (fav : list json) (r : gmap string json) :
  compound_name <> EmptyString ->
  r !! "name"%string = Some (JStr compound_name) ->
  merge_favorites [r] (save_favorite insert true compound_name mw fav).1
  = Return (save_favorite insert true compound_name mw fav).1.
Proof.
  intros Hne Hr. unfold save_favorite.
  assert (E : truthy compound_name = true)
    by (destruct compound_name; [congruence|reflexivity]).
  rewrite E. cbn [fst]. apply merge_favorites_present.
  constructor; [|constructor].
  exists (JStr compound_name). split; [exact Hr|apply json_in_add_favorite].
Qed.

Lemma saved_favorite_not_duplicated_example :
  merge_favorites [ retinal_row ]
    (save_favorite insert_refused true "retinal" 284.44 [ JStr "gaba" ]).1
  = Return [ JStr "gaba"; JStr "retinal" ].
Proof.
  rewrite (saved_favorite_not_duplicated insert_refused "retinal" 284.44
             [ JStr "gaba" ] retinal_row);
    [reflexivity|discriminate|reflexivity].
Defined.

(** ** A whole run *)

Lemma load_reagents_Return (execute : string -> py response) (user_id : string)
    (rows : list (gmap string json)) :
  execute user_id = Return {| data := Some rows |} ->
  load_reagents execute user_id = Return rows.
Proof.
  intros H. unfold load_reagents. rewrite H. cbn. now destruct rows.
Qed.

(** X27. The two backends fail differently.  The reagents are queried
    for the demo user at the start of every run, before the login gate: if
    that query raises, the run raises, logged in or not.  If it answers
    with rows that all have a name, a logged-in user whose subscription
    query raises still gets a page, the upgrade notice. *)
Theorem run_script_backend_failures
    (execute_reagents execute_plan : string -> py response)
    (fav : option (list json)) (s : gmap string value) :
  (forall e,
     execute_reagents DEMO_USER_ID = Raise e ->
     run_script execute_reagents execute_plan fav s = Raise e)
  /\ (forall rows id email e,
        execute_reagents DEMO_USER_ID = Return {| data := Some rows |} ->
        Forall (fun r => is_Some (r !! "name"%string)) rows ->
        s !! "user"%string = Some (VUser id email) ->
        execute_plan id = Raise e ->
        exists fav' s',
          run_script execute_reagents execute_plan fav s
          = Return (fav', s', upgrade_notice)).
Proof.
  split.
  - intros e He. unfold run_script, startup_favorites, load_reagents.
    now rewrite He.
  - intros rows id email e Hrows Hnamed Hu Hplan.
    unfold run_script, startup_favorites.
    rewrite (load_reagents_Return _ _ rows Hrows). cbn [mbind py_bind].
    destruct (merge_favorites_Return rows
                (match fav with Some l => l | None => [] end) Hnamed)
      as (fav' & Hm).
    rewrite Hm. cbn [mbind py_bind].
    rewrite (gate_logged_in _ _ id email Hu).
    unfold get_subscription_plan. rewrite Hplan.
    eexists _, _. reflexivity.
Qed.

Lemma run_script_backend_failures_example :
  run_script failing_backend pro_backend None logged_in_session
    = Raise (Exception "permission denied for table subscriptions")
  /\ exists fav' s',
       run_script reagents_backend failing_backend None logged_in_session
       = Return (fav', s', upgrade_notice).
Proof.
  split.
  - destruct (run_script_backend_failures failing_backend pro_backend None
                logged_in_session) as [Hr _].
    now apply Hr.
  - destruct (run_script_backend_failures reagents_backend failing_backend None
                logged_in_session) as [_ Hp].
    apply (Hp [ retinal_row; retinal_row ] "e29394b6"%string
              "ada@example.org"%string
              (Exception "permission denied for table subscriptions"));
      try reflexivity.
    repeat constructor; exists (JStr "retinal"); reflexivity.
Defined.

(** ** More on the bounds *)

Lemma vehicle_frac_bounds (g : settings) :
  stock_vehicle_percent g <= 100 -> 0 <= vehicle_frac g <= 1.
Proof.
  intros H100. unfold vehicle_frac.
  destruct (negb (vehicle_eqb (vehicle_type g) Aqueous_none)); cbn [andb];
    [|lra].
  destruct (float_gt (stock_vehicle_percent g) 0) eqn:E; [|lra].
  apply float_gt_spec in E. split.
  - apply Qle_shift_div_l; lra.
  - apply Qle_shift_div_r; lra.
Qed.

(** X28. With a stock vehicle percentage within its field's bounds (at
    most 100) the vehicle fraction lies between 0 and 1, and a single
    dilution to a target not above the stock reports a vehicle percentage
    between 0 and 100. *)
Theorem single_dilution_vehicle_percent_bounds (g : settings) (C1 C2 : Q)
    (u : conc_unit) :
  stock_vehicle_percent g <= 100 -> 0 < well_volume g ->
  0 <= C2 -> C2 <= C1 -> 0 < C1 ->
  0 <= vehicle_frac g <= 1
  /\ exists r,
       single_dilution g C1 u C2 u = Return (Result r)
       /\ 0 <= sd_vehicle_percent r <= 100.
Proof.
  intros H100 HV HC2 Hle HC1.
  pose proof (vehicle_frac_bounds g H100) as [Hf0 Hf1].
  split; [split; assumption|].
  eexists. split; [apply single_dilution_Result; lra|].
  cbn [sd_vehicle_percent].
  assert (E : C2 * well_volume g / C1 * vehicle_frac g / well_volume g * 100
              == C2 / C1 * vehicle_frac g * 100) by (field; lra).
  rewrite E.
  assert (H0 : 0 <= C2 / C1) by (apply Qle_shift_div_l; lra).
  assert (H1 : C2 / C1 <= 1) by (apply Qle_shift_div_r; lra).
  split; nra.
Qed.

Lemma single_dilution_vehicle_percent_bounds_example :
  exists r,
    single_dilution cell_culture_300 25 mM 4 mM = Return (Result r)
    /\ 0 <= sd_vehicle_percent r <= 100.
Proof.
  destruct (single_dilution_vehicle_percent_bounds cell_culture_300 25 4 mM)
    as (_ & r & Hr & Hb); try (cbn; lra).
  exists r. split; assumption.
Defined.

(** X29. The from-solid branch and the unit converter agree: the stock
    concentration it shows for dissolving all the powder in 1 mL is what the
    unit converter gives for mass_mg mg/mL, and the one for 2 mL is half of
    it (molecular weight within its bounds, at least 1). *)
Theorem dissolve_all_agrees_with_converter (mass_mg mw : Q) (u : conc_unit)
    (target_conc final_vol_ml : Q) :
  1 <= mw ->
  exists r stock_if_1ml_mM stock_if_2ml_mM mM_value,
    from_solid mass_mg mw u target_conc final_vol_ml = Result r
    /\ fs_stock_if_dissolved r = Return (stock_if_1ml_mM, stock_if_2ml_mM)
    /\ unit_converter mw mgml_to_mM mass_mg = Return mM_value
    /\ stock_if_1ml_mM == mM_value
    /\ stock_if_2ml_mM == mM_value / 2.
Proof.
  intros Hmw. unfold from_solid, unit_converter.
  rewrite !truediv_Return by lra. cbn [mbind py_bind mret py_ret].
  eexists _, _, _, _. split; [reflexivity|].
  cbn [fs_stock_if_dissolved]. split; [reflexivity|]. split; [reflexivity|].
  split; field; lra.
Qed.

Lemma dissolve_all_agrees_with_converter_example :
  exists r stock_if_1ml_mM stock_if_2ml_mM mM_value,
    from_solid 50 284.44 uM 100 20 = Result r
    /\ fs_stock_if_dissolved r = Return (stock_if_1ml_mM, stock_if_2ml_mM)
    /\ unit_converter 284.44 mgml_to_mM 50 = Return mM_value
    /\ stock_if_1ml_mM == mM_value
    /\ stock_if_2ml_mM == mM_value / 2.
Proof.
  apply (dissolve_all_agrees_with_converter 50 284.44 uM 100 20). lra.
Defined.


